(** * Task classification and dispatch of the voice assistant

    A shallow embedding of [multiagent.py] and [main.py].

    Text is a [string] of 8-bit characters read as code points 0..255
    (Latin-1); on that range [str.lower], [in], [ord] and the two regular
    expressions of the program are reproduced exactly.  Calls that leave
    the process (language models, microphone, speech services, clock,
    file system) are answered by an environment that sees the list of
    calls made so far; every such call is appended to that list.
    Console output and logging are not modelled. *)

From Stdlib Require Import String Ascii List Arith NArith Bool Lia DecimalString.
Import ListNotations.
Open Scope string_scope.
Open Scope nat_scope.

(** ** Python built-ins used by the program *)

Module Py.

(** Exceptions the program raises or catches by name. *)
Inductive exn : Type :=
| KeyError (key : string)
| ValueError (msg : string)
| RuntimeError (msg : string)
| WaitTimeoutError
| UnknownValueError
| RequestError (msg : string)
| OSError (msg : string)
| Exception (msg : string).

(** A computation that returns or raises. *)
Definition result (A : Type) : Type := (exn + A)%type.

Definition ret {A} (a : A) : result A := inr a.
Definition raise {A} (e : exn) : result A := inl e.
Definition bind {A B} (r : result A) (k : A -> result B) : result B :=
  match r with
  | inl e => inl e
  | inr a => k a
  end.

(** [d[k]] on a dict kept in insertion order. *)
Definition dict (V : Type) : Type := list (string * V).

Fixpoint get {V} (d : dict V) (k : string) : option V :=
  match d with
  | [] => None
  | (k', v) :: d' => if String.eqb k k' then Some v else get d' k
  end.

Definition getitem {V} (d : dict V) (k : string) : result V :=
  match get d k with
  | Some v => ret v
  | None => raise (KeyError k)
  end.

(** [d.get(k, default)]. *)
Definition get_default {V} (d : dict V) (k : string) (default : V) : V :=
  match get d k with
  | Some v => v
  | None => default
  end.

(** [d[k] = v]: replaces in place, or appends a new key. *)
Fixpoint setitem {V} (d : dict V) (k : string) (v : V) : dict V :=
  match d with
  | [] => [(k, v)]
  | (k', v') :: d' =>
      if String.eqb k k' then (k', v) :: d' else (k', v') :: setitem d' k v
  end.

Definition values {V} (d : dict V) : list V := map snd d.
Definition items {V} (d : dict V) : list (string * V) := d.

(** [ord(c)]. *)
Definition ord (c : ascii) : nat := nat_of_ascii c.

(** [str.lower] on code points below 256: A-Z, and the capital letters
    of the Latin-1 block (U+00C0..U+00DE without the sign U+00D7). *)
Definition lower_char (c : ascii) : ascii :=
  let n := ord c in
  if ((65 <=? n) && (n <=? 90))
     || ((192 <=? n) && (n <=? 222) && negb (n =? 215))
  then ascii_of_nat (n + 32)
  else c.

Fixpoint lower (s : string) : string :=
  match s with
  | EmptyString => EmptyString
  | String c s' => String (lower_char c) (lower s')
  end.

(** [s.startswith(p)]. *)
Fixpoint startswith (p s : string) : bool :=
  match p, s with
  | EmptyString, _ => true
  | String _ _, EmptyString => false
  | String a p', String b s' => Ascii.eqb a b && startswith p' s'
  end.

(** [p in s] for strings. *)
Fixpoint contains (p s : string) : bool :=
  startswith p s
  || match s with
     | EmptyString => false
     | String _ s' => contains p s'
     end.

(** [any(...)] and membership in a list of strings. *)
Definition any {A} (f : A -> bool) (l : list A) : bool := existsb f l.

Definition mem (k : string) (l : list string) : bool :=
  existsb (String.eqb k) l.

(** [max(l)]: the largest element; an empty argument raises. *)
Definition max (l : list nat) : result nat :=
  match l with
  | [] => raise (ValueError "max() arg is an empty sequence")
  | x :: xs => ret (fold_left Nat.max xs x)
  end.

(** [max(l, key=f)]: the running maximum is replaced only by a strictly
    larger key, so the first maximal element in iteration order wins. *)
Definition max_step {A} (key : A -> nat) (best y : A) : A :=
  if key best <? key y then y else best.

Definition max_key {A} (key : A -> nat) (l : list A) : result A :=
  match l with
  | [] => raise (ValueError "max() arg is an empty sequence")
  | x :: xs => ret (fold_left (max_step key) xs x)
  end.

(** [re.findall] for a pattern [(w1|w2|...)] of literal alternatives.
    The scan goes left to right; at a position the first alternative
    that matches there is taken and the scan resumes behind the match
    ([skip] counts the characters of the match still to pass over), so
    matches do not overlap. *)
Fixpoint match_alt (alts : list string) (s : string) : option string :=
  match alts with
  | [] => None
  | w :: alts' => if startswith w s then Some w else match_alt alts' s
  end.

Fixpoint findall_from (alts : list string) (skip : nat) (s : string)
  : list string :=
  match s with
  | EmptyString =>
      match skip, match_alt alts EmptyString with
      | O, Some w => [w]
      | _, _ => []
      end
  | String _ s' =>
      match skip with
      | S k => findall_from alts k s'
      | O =>
          match match_alt alts s with
          | Some w => w :: findall_from alts (String.length w - 1) s'
          | None => findall_from alts 0 s'
          end
      end
  end.

Definition findall (alts : list string) (s : string) : list string :=
  findall_from alts 0 s.

(** [f"{n}"] for a non-negative integer. *)
Definition str_of_int (n : N) : string :=
  NilZero.string_of_uint (N.to_uint n).

End Py.

Notation "x <- c ;; k" := (Py.bind c (fun x => k))
  (at level 61, c at next level, right associativity).

(** ** Computations with state and exceptions

    A computation threads a state (which holds the list of outside calls
    made so far, oldest first) and returns or raises. *)

Section Effects.

Context {St : Type}.

Definition io (A : Type) : Type := St -> Py.result A * St.

Definition io_ret {A} (a : A) : io A := fun st => (inr a, st).

Definition io_raise {A} (e : Py.exn) : io A := fun st => (inl e, st).

Definition io_bind {A B} (c : io A) (k : A -> io B) : io B :=
  fun st =>
    match c st with
    | (inl e, st') => (inl e, st')
    | (inr a, st') => k a st'
    end.

(** A pure step that may raise. *)
Definition lift {A} (r : Py.result A) : io A := fun st => (r, st).

(** [try: c  except Exception as e: h e]. *)
Definition try_except {A} (c : io A) (h : Py.exn -> io A) : io A :=
  fun st =>
    match c st with
    | (inl e, st') => h e st'
    | (inr a, st') => (inr a, st')
    end.

(** How a loop body ends. *)
Inductive loop_ctl : Type := Continue | Break.

(** [while True: body], unrolled at most [fuel] times: [Some tt] when a
    [break] ended the loop, [None] when the loop was still running. *)
Fixpoint while_true (fuel : nat) (body : io loop_ctl) : io (option unit) :=
  match fuel with
  | O => io_ret None
  | S fuel' =>
      io_bind body (fun ctl =>
        match ctl with
        | Break => io_ret (Some tt)
        | Continue => while_true fuel' body
        end)
  end.

End Effects.

Notation "x <~ c ;; k" := (io_bind c (fun x => k))
  (at level 61, c at next level, right associativity).
Notation "c ;;; k" := (io_bind c (fun _ => k))
  (at level 61, right associativity).

(** ** multiagent.py *)

Module Multiagent.
Import Py.

(** [Ollama(model=...)]: a handle on one served model.  Two handles
    made by the file differ in their model name, so equal records are
    the same object. *)
Record Ollama : Type := { model : string }.

(** [LLMChain(llm, prompt)]; every template of the file is a fixed text
    followed by [{query}], kept here as that text. *)
Record LLMChain : Type := { llm : Ollama; template : string }.

Inductive event : Type :=
| Arun (chain : LLMChain) (query : string)
| MicListen
| RecognizeGoogle
| Say (text : string)
| Post (url model prompt : string).

Record Env : Type := {
  (** GET /api/tags: status code and the names of the served models *)
  api_tags : result (nat * list string);
  (** answer of a model to a prompt *)
  generate : list event -> Ollama -> string -> result string;
  (** opening the microphone and capturing audio *)
  capture : list event -> result unit;
  (** transcription of the audio just captured *)
  recognize_google : list event -> result string;
  (** the speech engine saying a text *)
  say : list event -> string -> result unit;
  (** POST /api/generate: status code and the [response] field *)
  post_generate : list event -> string -> result (nat * string)
}.

(** Computations of this file: the state is the list of calls. *)
Definition action (A : Type) : Type := @io (list event) A.

(** One outside call: it is recorded, and the environment answers from
    the calls made before it. *)
Definition call {A} (e : event) (answer : list event -> result A)
  : action A :=
  fun tr => (answer tr, (tr ++ [e])%list).

(** *** ModelRouter *)

Record ModelRouter : Type := {
  router_models : dict Ollama;
  task_patterns : dict (list string)
}.

Definition ModelRouter_init (models : dict Ollama) : ModelRouter :=
  {| router_models := models;
     task_patterns :=
       [("code", ["code"; "program"; "script"; "function"; "class"; "bug";
                  "error"; "debug"; "implement"; "develop"]);
        ("chat", ["chat"; "talk"; "speak"; "converse"; "discuss";
                  "explain"; "help"; "assist"]);
        ("creative", ["story"; "poem"; "creative"; "imagine"; "generate";
                      "write"; "compose"]);
        ("analysis", ["analyze"; "examine"; "investigate"; "research";
                      "study"; "evaluate"])] |}.

(** [len(re.findall(self.task_patterns[k], query))]. *)
Definition count_matches (self : ModelRouter) (k query : string)
  : result nat :=
  p <- getitem (task_patterns self) k ;;
  ret (List.length (findall p query)).

(** The [scores] dict of [choose_model], in its insertion order. *)
Definition scores_of (self : ModelRouter) (query : string)
  : result (dict nat) :=
  c <- count_matches self "code" query ;;
  h <- count_matches self "chat" query ;;
  r <- count_matches self "creative" query ;;
  a <- count_matches self "analysis" query ;;
  ret [("code", c); ("chat", h); ("creative", r); ("analysis", a)].

Definition model_mapping : dict string :=
  [("code", "code"); ("chat", "chat"); ("creative", "chat");
   ("analysis", "chat")].

Definition choose_model (self : ModelRouter) (query : string)
  : result (string * Ollama) :=
  let query := lower query in
  scores <- scores_of self query ;;
  top <- max (values scores) ;;
  if top =? 0 then
    m <- getitem (router_models self) "chat" ;;
    ret ("chat", m)
  else
    best <- max_key snd (items scores) ;;
    let model_type := fst best in
    chosen_type <- getitem model_mapping model_type ;;
    m <- getitem (router_models self) chosen_type ;;
    ret (model_type, m).

(** *** MultiAgentAssistant *)

Record MultiAgentAssistant : Type := {
  available_models : list string;
  models : dict Ollama;
  router : ModelRouter;
  chains : dict LLMChain
}.

Definition _check_available_models (E : Env) : list string :=
  match api_tags E with
  | inr (200, names) => names
  | inr _ => []
  | inl _ => []
  end.

Definition MultiAgentAssistant_init (E : Env) : result MultiAgentAssistant :=
  let available := _check_available_models E in
  let models : dict Ollama := [] in
  models <-
    (if mem "mistral:7b-instruct-q4_K_M" available then
       ret (setitem models "chat" {| model := "mistral:7b-instruct-q4_K_M" |})
     else if mem "neural-chat:7b-v3.3-q4_K_M" available then
       ret (setitem models "chat" {| model := "neural-chat:7b-v3.3-q4_K_M" |})
     else if mem "llama2:7b-chat-q4_K_M" available then
       ret (setitem models "chat" {| model := "llama2:7b-chat-q4_K_M" |})
     else raise (RuntimeError "No suitable chat model available")) ;;
  models <-
    (if mem "codellama:7b-instruct-q4_K_M" available then
       ret (setitem models "code" {| model := "codellama:7b-instruct-q4_K_M" |})
     else
       chat <- getitem models "chat" ;;
       ret (setitem models "code" chat)) ;;
  chat <- getitem models "chat" ;;
  code <- getitem models "code" ;;
  ret {| available_models := available;
         models := models;
         router := ModelRouter_init models;
         chains :=
           [("chat", {| llm := chat;
                        template := "You are a helpful AI assistant. " |});
            ("code", {| llm := code;
                        template := "You are an expert programmer. " |})] |}.

(** [chain.arun(query=query)]: the template is filled in and sent to the
    chain's model. *)
Definition arun (E : Env) (chain : LLMChain) (query : string)
  : action string :=
  let prompt := template chain ++ query in
  call (Arun chain query) (fun tr => generate E tr (llm chain) prompt).

Definition process_query (E : Env) (self : MultiAgentAssistant)
  (query : string) : action string :=
  tm <~ lift (choose_model (router self) query) ;;
  let task_type := fst tm in
  default <~ lift (getitem (chains self) "chat") ;;
  let chain := get_default (chains self) task_type default in
  try_except
    (arun E chain query)
    (fun e =>
       if negb (task_type =? "chat")%string then
         fallback <~ lift (getitem (chains self) "chat") ;;
         arun E fallback query
       else io_raise e).

(** *** MultiAgent (the plain voice loop of this file) *)

Definition ollama_url : string := "http://localhost:11434/api/generate".

(** [listen]: the capture is outside the [try], so its exception leaves
    [listen]; [None] when the transcription raises. *)
Definition listen (E : Env) : action (option string) :=
  call MicListen (capture E) ;;;
  try_except
    (text <~ call RecognizeGoogle (recognize_google E) ;;
     io_ret (Some text))
    (fun _ => io_ret None).

(** [speak]: nothing catches an exception of the speech engine. *)
Definition speak (E : Env) (text : string) : action unit :=
  call (Say text) (fun tr => say E tr text).

Definition process_command (E : Env) (command : string)
  : action string :=
  response <~ call (Post ollama_url "codellama" command)
                   (fun tr => post_generate E tr command) ;;
  if fst response =? 200 then io_ret (snd response)
  else io_ret "Sorry, I couldn't process that command.".

(** Truth value of [listen]'s result: [None] and the empty text are false. *)
Definition truthy (command : option string) : option string :=
  match command with
  | Some (String c s) => Some (String c s)
  | _ => None
  end.

Definition run_body (E : Env) : action loop_ctl :=
  command <~ listen E ;;
  match truthy command with
  | Some command =>
      if contains "exit" (lower command) then
        speak E "Goodbye!" ;;; io_ret Break
      else
        response <~ process_command E command ;;
        speak E response ;;; io_ret Continue
  | None => io_ret Continue
  end.

Definition run (E : Env) (fuel : nat) : action (option unit) :=
  speak E "Hello! I'm your AI assistant. How can I help you?" ;;;
  while_true fuel (run_body E).

End Multiagent.

(** ** main.py *)

Module Main.
Import Py.

(** [Ollama(model, base_url, temperature, timeout)]; the temperature, a
    float, is left out. *)
Record Ollama : Type := {
  model : string;
  base_url : string;
  timeout : nat
}.

Inductive event : Type :=
| Microphone
| Listen (timeout phrase_time_limit : nat)
| RecognizeGoogle (language : option string)
| Sleep (seconds : nat)
| Invoke (m : Ollama) (prompt : string)
| Time
| WriteFile (name content : string)
| TtsSave (text lang file : string)
| Playsound (file : string)
| Remove (file : string)
| Cleanup.

Record Env : Type := {
  getenv : string -> option string;
  (** opening the microphone and adjusting for ambient noise *)
  microphone : list event -> result unit;
  (** capturing audio; raises [WaitTimeoutError] when nothing is heard *)
  capture : list event -> result unit;
  (** transcription of the audio just captured, in a given language *)
  recognize_google : list event -> option string -> result string;
  (** answer of a model to a prompt *)
  invoke : list event -> Ollama -> string -> result string;
  (** [int(time.time())] *)
  time : list event -> N;
  (** opening a file for writing and writing a text to it *)
  write_file : list event -> string -> string -> result unit;
  (** [gTTS(text, lang).save(file)] *)
  tts_save : list event -> string -> string -> string -> result unit;
  playsound : list event -> string -> result unit;
  remove : list event -> string -> result unit
}.

(** The mutable part of a [MultiAgent] object and the calls made. *)
Record state : Type := {
  audio_counter : nat;
  trace : list event
}.

(** Computations of this file. *)
Definition action (A : Type) : Type := @io state A.

(** One outside call: it is recorded, and the environment answers from
    the calls made before it. *)
Definition call {A} (e : event) (answer : list event -> result A)
  : action A :=
  fun st =>
    (answer (trace st),
     {| audio_counter := audio_counter st;
        trace := (trace st ++ [e])%list |}).

(** The fields of a [MultiAgent] object that are set once.  The agents,
    memories, tools and interpreter that [__init__] also sets up are not
    used by the methods below. *)
Record MultiAgent : Type := {
  temp_dir : string;
  models : dict Ollama
}.

Definition getenv_default (E : Env) (name default : string) : string :=
  match getenv E name with
  | Some v => v
  | None => default
  end.

Definition setup_models (E : Env) : dict Ollama :=
  let base_url := "http://localhost:11434" in
  [("chat", {| model := getenv_default E "CHAT_MODEL" "neural-chat:7b-v3.3-q4_K_M";
               base_url := base_url;
               timeout := 60 |});
   ("code", {| model := getenv_default E "CODING_MODEL" "codellama:7b-instruct-q4_K_M";
               base_url := base_url;
               timeout := 60 |})].

Definition MultiAgent_init (E : Env) (tmp : string) : MultiAgent :=
  {| temp_dir := tmp; models := setup_models E |}.

Definition sleep (seconds : nat) : action unit :=
  call (Sleep seconds) (fun _ => ret tt).

(** *** listen *)

(** The languages tried one after the other once the automatic
    transcription has failed; [None] when each of them raised. *)
Fixpoint recognize_languages (E : Env) (langs : list string)
  : action (option string) :=
  match langs with
  | [] => io_ret None
  | lang :: langs' =>
      r <~ try_except
             (text <~ call (RecognizeGoogle (Some lang))
                           (fun tr => recognize_google E tr (Some lang)) ;;
              io_ret (Some text))
             (fun _ => io_ret None) ;;
      match r with
      | Some text => io_ret (Some text)
      | None => recognize_languages E langs'
      end
  end.

(** The body of the [try] of one attempt: returns the text or raises. *)
Definition listen_once (E : Env) : action string :=
  call Microphone (microphone E) ;;;
  call (Listen 10 10) (capture E) ;;;
  try_except
    (call (RecognizeGoogle None) (fun tr => recognize_google E tr None))
    (fun e =>
       r <~ recognize_languages E ["en-US"; "fa-IR"] ;;
       match r with
       | Some text => io_ret text
       | None => io_raise e
       end).

(** The four [except] clauses of an attempt; each only prints. *)
Definition listen_handler (e : exn) : action (option string) :=
  match e with
  | WaitTimeoutError => io_ret None
  | UnknownValueError => io_ret None
  | RequestError _ => io_ret None
  | _ => io_ret None
  end.

Fixpoint listen_loop (E : Env) (max_retries : nat) (attempts : list nat)
  : action (option string) :=
  match attempts with
  | [] => io_ret None
  | attempt :: attempts' =>
      r <~ try_except
             (text <~ listen_once E ;; io_ret (Some text))
             listen_handler ;;
      match r with
      | Some text => io_ret (Some text)
      | None =>
          (if attempt <? max_retries - 1 then sleep 1 else io_ret tt) ;;;
          listen_loop E max_retries attempts'
      end
  end.

Definition listen (E : Env) : action (option string) :=
  let max_retries := 3 in
  listen_loop E max_retries (seq 0 max_retries).

(** *** speak *)

(** ['en' if any(ord(c) < 128 for c in text) else 'fa']. *)
Definition tts_lang (text : string) : string :=
  if any (fun c => ord c <? 128) (list_ascii_of_string text)
  then "en" else "fa".

Definition incr_audio_counter : action nat :=
  fun st =>
    (inr (S (audio_counter st)),
     {| audio_counter := S (audio_counter st); trace := trace st |}).

(** The body of the [try] of one attempt. *)
Definition speak_once (E : Env) (self : MultiAgent) (text : string)
  : action unit :=
  let lang := tts_lang text in
  n <~ incr_audio_counter ;;
  let temp_file :=
    temp_dir self ++ "/" ++ "speech_" ++ str_of_int (N.of_nat n) ++ ".mp3" in
  call (TtsSave text lang temp_file)
       (fun tr => tts_save E tr text lang temp_file) ;;;
  call (Playsound temp_file) (fun tr => playsound E tr temp_file) ;;;
  try_except
    (call (Remove temp_file) (fun tr => remove E tr temp_file))
    (fun _ => io_ret tt).

Fixpoint speak_loop (E : Env) (self : MultiAgent) (text : string)
  (max_retries : nat) (attempts : list nat) : action unit :=
  match attempts with
  | [] => io_ret tt
  | attempt :: attempts' =>
      done <~ try_except
                (speak_once E self text ;;; io_ret true)
                (fun _ =>
                   (if attempt =? max_retries - 1 then io_ret tt
                    else sleep 1) ;;;
                   io_ret false) ;;
      if done : bool then io_ret tt
      else speak_loop E self text max_retries attempts'
  end.

Definition speak (E : Env) (self : MultiAgent) (text : string)
  : action unit :=
  let max_retries := 3 in
  speak_loop E self text max_retries (seq 0 max_retries).

(** *** process_command *)

Definition nl : string := String (ascii_of_nat 10) "".

(** The text behind, and the text before, the first occurrence of [p]. *)
Fixpoint after_first (p s : string) : option string :=
  if startswith p s then Some (substring (String.length p) (String.length s) s)
  else match s with
       | EmptyString => None
       | String _ s' => after_first p s'
       end.

Fixpoint before_first (p s : string) : option string :=
  if startswith p s then Some EmptyString
  else match s with
       | EmptyString => None
       | String c s' => option_map (String c) (before_first p s')
       end.

(** Element 0 of [re.findall(r'```python\n(.*?)\n```', s, re.DOTALL)],
    [None] when the list is empty: the leftmost opening fence that is
    followed by a closing one, and the shortest text between them (the
    dot also matches a newline).  Only the emptiness and the first
    element of the list are used by the program. *)
Definition first_code_block (s : string) : option string :=
  match after_first ("```python" ++ nl) s with
  | Some rest => before_first (nl ++ "```") rest
  | None => None
  end.

Definition code_keywords : list string :=
  ["code"; "program"; "script"; "function"; "debug"; "run"; "execute";
   "write"; "create"].

Definition code_prompt (command : string) : string :=
  "Please write a complete Python script for the following request: " ++ command ++ "

                    Requirements:
                    1. Include all necessary imports
                    2. Add error handling
                    3. Include comments explaining the code
                    4. Make the code runnable as a standalone script
                    5. Provide instructions on how to run the code

                    Please format your response as follows:
                    1. First explain what the code does
                    2. Then show the complete code
                    3. Finally provide instructions for running it".

Definition enhanced_prompt (command : string) : string :=
  "Please provide a comprehensive response to: " ++ command ++ "

                    Requirements:
                    1. Break down complex topics into understandable components
                    2. Provide detailed explanations with logical reasoning
                    3. Include relevant examples and analogies
                    4. Consider multiple perspectives
                    5. Suggest related concepts for deeper understanding
                    6. Keep the response clear and engaging
                    
                    If this is a language learning request:
                    1. Start with basic concepts
                    2. Provide practical examples
                    3. Include pronunciation tips if relevant
                    4. Suggest practice exercises
                    5. Make it interactive and engaging".

(** The inner [try] of the code branch. *)
Definition code_branch (E : Env) (self : MultiAgent) (command : string)
  : action string :=
  code <~ lift (getitem (models self) "code") ;;
  let prompt := code_prompt command in
  code_response <~ call (Invoke code prompt)
                        (fun tr => invoke E tr code prompt) ;;
  if contains "```python" code_response then
    match first_code_block code_response with
    | Some block =>
        now <~ call Time (fun tr => ret (time E tr)) ;;
        let script_name := "generated_script_" ++ str_of_int now ++ ".py" in
        call (WriteFile script_name block)
             (fun tr => write_file E tr script_name block) ;;;
        io_ret (code_response ++ nl ++ nl ++ "I've saved the code to "
                ++ script_name ++ ". You can run it using 'python "
                ++ script_name ++ "'")
    | None => io_ret code_response
    end
  else io_ret code_response.

(** The inner [try] of the other branch, and its handler. *)
Definition chat_branch (E : Env) (self : MultiAgent) (command : string)
  : action string :=
  try_except
    (chat <~ lift (getitem (models self) "chat") ;;
     let prompt := enhanced_prompt command in
     call (Invoke chat prompt) (fun tr => invoke E tr chat prompt))
    (fun _ =>
       chat <~ lift (getitem (models self) "chat") ;;
       call (Invoke chat command) (fun tr => invoke E tr chat command)).

(** [command] is [None] or a text. *)
Definition process_command (E : Env) (self : MultiAgent)
  (command : option string) : action string :=
  match command with
  | None | Some EmptyString =>
      io_ret "I didn't catch that. Could you please try again?"
  | Some command =>
      try_except
        (let is_code_query :=
           any (fun keyword => contains keyword (lower command))
               code_keywords in
         if is_code_query then
           try_except
             (code_branch E self command)
             (fun _ =>
                io_ret "There was an error generating the code. Please try rephrasing your request.")
         else chat_branch E self command)
        (fun _ =>
           io_ret "I encountered an error processing that command. Could you try rephrasing it?")
  end.

(** *** run *)

Definition truthy (command : option string) : bool :=
  match command with
  | Some (String _ _) => true
  | _ => false
  end.

Definition text_of (command : option string) : string :=
  match command with
  | Some s => s
  | None => EmptyString
  end.

Definition run_body (E : Env) (self : MultiAgent) : action loop_ctl :=
  command <~ listen E ;;
  if truthy command then
    if contains "exit" (lower (text_of command))
       || contains "quit" (lower (text_of command))
    then speak E self "Goodbye!" ;;; io_ret Break
    else
      response <~ process_command E self command ;;
      speak E self response ;;; io_ret Continue
  else io_ret Continue.

Definition cleanup : action unit := call Cleanup (fun _ => ret tt).

(** [run]: the greeting, the loop, and [cleanup] in the [finally]; an
    exception that escapes the loop is logged and dropped.  The [finally]
    is reached when the loop has ended; [None] stands for a loop that is
    still running after [fuel] iterations, where [run] has not returned
    and [cleanup] has not been called. *)
Definition run (E : Env) (self : MultiAgent) (fuel : nat)
  : action (option unit) :=
  r <~ try_except
         (speak E self "Hello! I'm your AI assistant. I can help you with general questions, internet searches, and code-related tasks. How can I help you?" ;;;
          while_true fuel (run_body E self))
         (fun _ => io_ret (Some tt)) ;;
  match r with
  | Some _ => cleanup ;;; io_ret r
  | None => io_ret None
  end.

End Main.


(** ** Vocabulary of the statements *)

Definition categories : list string := ["code"; "chat"; "creative"; "analysis"].

(** Number of matches of category [k] in the lowercased query, as
    [choose_model] counts it. *)
Definition score (k q : string) : nat :=
  match Multiagent.count_matches (Multiagent.ModelRouter_init []) k (Py.lower q) with
  | inr n => n
  | inl _ => 0
  end.

(** [k] attains the highest count for [q]. *)
Definition is_top (q k : string) : Prop :=
  forall k', In k' categories -> score k' q <= score k q.

(** Position of a category in the [scores] dict. *)
Definition table_index (k : string) : nat :=
  if (k =? "code")%string then 0
  else if (k =? "chat")%string then 1
  else if (k =? "creative")%string then 2
  else 3.

(** The priority the specification gives for ties: chat over
    creative and analysis over code. *)
Definition spec_priority (k : string) : nat :=
  if (k =? "chat")%string then 3
  else if (k =? "code")%string then 1
  else 2.

(** The tie-break rule in the specification's words, for one query: when
    two categories tie for the highest nonzero count, the answer is a top
    category that no other top category outranks. *)
Definition spec_tie_break (self : Multiagent.ModelRouter) (q : string) : Prop :=
  forall k1 k2,
    In k1 categories -> In k2 categories -> k1 <> k2 ->
    is_top q k1 -> is_top q k2 -> 0 < score k1 q ->
    exists t m,
      Multiagent.choose_model self q = inr (t, m)
      /\ is_top q t
      /\ forall k, In k categories -> is_top q k ->
                   spec_priority k <= spec_priority t.

(** The primary role of a category in the specification's table, with the
    general role under the program's key for it. *)
Definition primary_role (k : string) : string :=
  if (k =? "code")%string then "code" else "chat".

(** The first category, in the order of the [scores] dict, whose count is
    the highest among four counts. *)
Definition first_top_of (c h r a : nat) : string :=
  if (h <=? c) && (r <=? c) && (a <=? c) then "code"
  else if (r <=? h) && (a <=? h) then "chat"
  else if a <=? r then "creative"
  else "analysis".

Definition first_top (q : string) : string :=
  first_top_of (score "code" q) (score "chat" q)
               (score "creative" q) (score "analysis" q).

(** The two chains an assistant is built with. *)
Definition chat_chain (m : Multiagent.Ollama) : Multiagent.LLMChain :=
  {| Multiagent.llm := m;
     Multiagent.template := "You are a helpful AI assistant. " |}.

Definition code_chain (m : Multiagent.Ollama) : Multiagent.LLMChain :=
  {| Multiagent.llm := m;
     Multiagent.template := "You are an expert programmer. " |}.

Definition codellama : string := "codellama:7b-instruct-q4_K_M".

(** The chain [process_query] starts with for a task type. *)
Definition chain_for (mchat mcode : Multiagent.Ollama) (t : string)
  : Multiagent.LLMChain :=
  if (t =? "code")%string then code_chain mcode else chat_chain mchat.

(** The chains invoked in a list of calls, in order. *)
Fixpoint aruns (tr : list Multiagent.event) : list Multiagent.LLMChain :=
  match tr with
  | [] => []
  | Multiagent.Arun chain _ :: tr' => chain :: aruns tr'
  | _ :: tr' => aruns tr'
  end.

(** ** Concrete environments for evaluation *)

Definition mistral : Multiagent.Ollama :=
  {| Multiagent.model := "mistral:7b-instruct-q4_K_M" |}.

Definition models0 : Py.dict Multiagent.Ollama :=
  [("chat", mistral); ("code", {| Multiagent.model := codellama |})].

(** An environment of [multiagent.py]: the served models, the answer every
    model gives, and what the recognizer hears. *)
Definition env_of (names : list string) (answer heard : Py.result string)
  : Multiagent.Env :=
  {| Multiagent.api_tags := inr (200, names);
     Multiagent.generate := fun _ _ _ => answer;
     Multiagent.capture := fun _ => inr tt;
     Multiagent.recognize_google := fun _ => heard;
     Multiagent.say := fun _ _ => inr tt;
     Multiagent.post_generate := fun _ _ => inr (200, "ok") |}.

Definition down : Py.exn := Py.Exception "connection refused".

(** The route of a category in the specification's words: its primary
    role, then the other role. *)
Definition spec_route (k : string) : list string :=
  [primary_role k;
   if (primary_role k =? "code")%string then "chat" else "code"].

(** The assistant [__init__] builds in an environment (an assistant
    without models where [__init__] raises). *)
Definition started (E : Multiagent.Env) : Multiagent.MultiAgentAssistant :=
  match Multiagent.MultiAgentAssistant_init E with
  | inr a => a
  | inl _ =>
      {| Multiagent.available_models := [];
         Multiagent.models := [];
         Multiagent.router := Multiagent.ModelRouter_init [];
         Multiagent.chains := [] |}
  end.

Definition llama2 : Multiagent.Ollama :=
  {| Multiagent.model := "llama2:7b-chat-q4_K_M" |}.

(** Only a general model is served, and it answers. *)
Definition env_general_only : Multiagent.Env :=
  env_of ["llama2:7b-chat-q4_K_M"] (inr "def f(): pass") (inr "hi").

(** Both models are served, and every invocation fails. *)
Definition env_all_down : Multiagent.Env :=
  env_of ["mistral:7b-instruct-q4_K_M"; "codellama:7b-instruct-q4_K_M"]
         (inl down) (inr "hi").

(** Only a general model is served, and every invocation fails. *)
Definition env_general_down : Multiagent.Env :=
  env_of ["llama2:7b-chat-q4_K_M"] (inl down) (inr "hi").

(** The calls [speak] may make for a text: syntheses of that text in the
    language [tts_lang] gives, playbacks, removals and pauses. *)
Definition speak_event (text : string) (e : Main.event) : Prop :=
  match e with
  | Main.TtsSave t l _ => t = text /\ l = Main.tts_lang text
  | Main.Playsound _ | Main.Remove _ | Main.Sleep _ => True
  | _ => False
  end.

(** The model invocations in a list of calls of [main.py], in order. *)
Fixpoint invokes (tr : list Main.event) : list (Main.Ollama * string) :=
  match tr with
  | [] => []
  | Main.Invoke m prompt :: tr' => (m, prompt) :: invokes tr'
  | _ :: tr' => invokes tr'
  end.

(** The claim on the synthesis locale in the specification's words. *)
Definition non_ascii_routes_to_fa (text : string) : Prop :=
  (exists c, In c (list_ascii_of_string text) /\ 128 <= Py.ord c) ->
  Main.tts_lang text = "fa".

(** A text with a non-ASCII letter: "caf" and U+00E9. *)
Definition cafe : string := "caf" ++ String (ascii_of_nat 233) "".

(** The three ways a capture attempt fails. *)
Inductive capture_failure : Type :=
  | NoInput
  | Untranscribable
  | TransportFailure (msg : string).

Definition failure_exn (f : capture_failure) : Py.exn :=
  match f with
  | NoInput => Py.WaitTimeoutError
  | Untranscribable => Py.UnknownValueError
  | TransportFailure msg => Py.RequestError msg
  end.

(** The calls of an attempt that fails in a given way: without input
    nothing is transcribed; otherwise the automatic transcription and the
    two language-specific ones are tried. *)
Definition attempt_calls (f : capture_failure) : list Main.event :=
  match f with
  | NoInput => [Main.Microphone; Main.Listen 10 10]
  | _ => [Main.Microphone; Main.Listen 10 10; Main.RecognizeGoogle None;
          Main.RecognizeGoogle (Some "en-US");
          Main.RecognizeGoogle (Some "fa-IR")]
  end.

(** The environment makes the attempt that starts after the calls [tr]
    fail in the way [f]. *)
Definition fails_with (E : Main.Env) (tr : list Main.event)
  (f : capture_failure) : Prop :=
  Main.microphone E tr = inr tt
  /\ match f with
     | NoInput =>
         Main.capture E (tr ++ [Main.Microphone]) = inl Py.WaitTimeoutError
     | _ =>
         Main.capture E (tr ++ [Main.Microphone]) = inr tt
         /\ Main.recognize_google E
              (tr ++ [Main.Microphone; Main.Listen 10 10]) None
            = inl (failure_exn f)
         /\ (exists e,
               Main.recognize_google E
                 (tr ++ [Main.Microphone; Main.Listen 10 10;
                         Main.RecognizeGoogle None])
                 (Some "en-US") = inl e)
         /\ (exists e,
               Main.recognize_google E
                 (tr ++ [Main.Microphone; Main.Listen 10 10;
                         Main.RecognizeGoogle None;
                         Main.RecognizeGoogle (Some "en-US")])
                 (Some "fa-IR") = inl e)
     end.

(** An environment of [main.py] with working speech output, given how
    capture, transcription, the models and the file system behave. *)
Definition main_env
  (capture : list Main.event -> Py.result unit)
  (recognize : list Main.event -> option string -> Py.result string)
  (invoke : list Main.event -> Main.Ollama -> string -> Py.result string)
  (write_file : list Main.event -> string -> string -> Py.result unit)
  : Main.Env :=
  {| Main.getenv := fun _ => None;
     Main.microphone := fun _ => inr tt;
     Main.capture := capture;
     Main.recognize_google := recognize;
     Main.invoke := invoke;
     Main.time := fun _ => 1700000000%N;
     Main.write_file := write_file;
     Main.tts_save := fun _ _ _ _ => inr tt;
     Main.playsound := fun _ _ => inr tt;
     Main.remove := fun _ _ => inr tt |}.

Definition fresh : Main.state :=
  {| Main.audio_counter := 0; Main.trace := [] |}.

(** Nothing is heard in the first attempt, the second is not
    transcribable, the third meets a transport failure. *)
Definition env_no_speech : Main.Env :=
  main_env
    (fun tr => if List.length tr <? 3 then inl Py.WaitTimeoutError else inr tt)
    (fun tr _ => if List.length tr <? 9 then inl Py.UnknownValueError
                 else inl (Py.RequestError "network"))
    (fun _ _ _ => inr "ok")
    (fun _ _ _ => inr tt).

(** The fixed replies of [process_command]. *)
Definition code_error_reply : string :=
  "There was an error generating the code. Please try rephrasing your request.".

Definition command_error_reply : string :=
  "I encountered an error processing that command. Could you try rephrasing it?".

(** [is_code_query] of [process_command]. *)
Definition is_code_query (command : string) : bool :=
  Py.any (fun keyword => Py.contains keyword (Py.lower command))
         Main.code_keywords.

(** The name of the script written after the calls [tr], and the reply
    that announces it. *)
Definition script_name_at (E : Main.Env) (tr : list Main.event) : string :=
  "generated_script_" ++ Py.str_of_int (Main.time E tr) ++ ".py".

Definition saved_reply (code_response script_name : string) : string :=
  code_response ++ Main.nl ++ Main.nl ++ "I've saved the code to "
  ++ script_name ++ ". You can run it using 'python " ++ script_name ++ "'".

(** The claim on the saved code block in the specification's words: the
    model answered with a fenced block, writing it fails, and the caller
    still gets a reply that carries the model's answer. *)
Definition response_survives_failed_write
  (E : Main.Env) (self : Main.MultiAgent) (command : string) (st : Main.state)
  : Prop :=
  forall code resp block e,
    Py.get (Main.models self) "code" = Some code ->
    Main.invoke E (Main.trace st) code (Main.code_prompt command) = inr resp ->
    Main.first_code_block resp = Some block ->
    Main.write_file E
      (Main.trace st ++ [Main.Invoke code (Main.code_prompt command); Main.Time])
      (script_name_at E
         (Main.trace st ++ [Main.Invoke code (Main.code_prompt command)]))
      block = inl e ->
    exists out,
      fst (Main.process_command E self (Some command) st) = inr out
      /\ Py.contains resp out = true.

(** An answer of the code model with one fenced block. *)
Definition fenced_answer : string :=
  "Here is the script:" ++ Main.nl ++ "```python" ++ Main.nl
  ++ "print(42)" ++ Main.nl ++ "```" ++ Main.nl ++ "Run it with python.".

(** The code model answers with a fenced block; the disk is writable or
    not. *)
Definition env_disk (writable : bool) : Main.Env :=
  main_env (fun _ => inr tt) (fun _ _ => inr "write code")
           (fun _ _ _ => inr fenced_answer)
           (fun _ _ _ => if writable then inr tt
                         else inl (Py.OSError "Read-only file system")).

Definition agent_of (E : Main.Env) : Main.MultiAgent :=
  Main.MultiAgent_init E "/tmp/agent".

(** Every model of [main.py] is unreachable. *)
Definition env_models_down : Main.Env :=
  main_env (fun _ => inr tt) (fun _ _ => inr "hello")
           (fun _ _ _ => inl down) (fun _ _ _ => inr tt).

(** The recognizer of [multiagent.py] hears a given text. *)
Definition env_hears (text : string) : Multiagent.Env :=
  env_of ["mistral:7b-instruct-q4_K_M"; "codellama:7b-instruct-q4_K_M"]
         (inr "ok") (inr text).

(** The recognizer of [main.py] hears a given text at once. *)
Definition env_hears_main (text : string) : Main.Env :=
  main_env (fun _ => inr tt) (fun _ _ => inr text)
           (fun _ _ _ => inr "ok") (fun _ _ _ => inr tt).

(** The claim on the exit phrases in its own words, for the loop of
    [multiagent.py]: a captured command with "exit" or "quit" in its
    lowercased text ends the loop. *)
Definition exit_or_quit_ends_loop (E : Multiagent.Env)
  (tr : list Multiagent.event) : Prop :=
  forall cmd tr1,
    Multiagent.listen E tr = (inr (Some cmd), tr1) ->
    Py.contains "exit" (Py.lower cmd) || Py.contains "quit" (Py.lower cmd)
    = true ->
    fst (Multiagent.run_body E tr) = inr Break.


(** ** Further vocabulary *)

(** The chat models [__init__] looks for, in its order of preference. *)
Definition chat_candidates : list string :=
  ["mistral:7b-instruct-q4_K_M"; "neural-chat:7b-v3.3-q4_K_M";
   "llama2:7b-chat-q4_K_M"].

Definition no_chat_model : Py.exn :=
  Py.RuntimeError "No suitable chat model available".

(** The model server answers the tags request with a given result. *)
Definition env_tags (tags : Py.result (nat * list string)) : Multiagent.Env :=
  {| Multiagent.api_tags := tags;
     Multiagent.generate := fun _ _ _ => inr "ok";
     Multiagent.capture := fun _ => inr tt;
     Multiagent.recognize_google := fun _ => inr "hi";
     Multiagent.say := fun _ _ => inr tt;
     Multiagent.post_generate := fun _ _ => inr (200, "ok") |}.

(** The text a chain puts before the query, by task type. *)
Definition template_for (t : string) : string :=
  if (t =? "code")%string then "You are an expert programmer. "
  else "You are a helpful AI assistant. ".

(** The served code model fails and the chat model answers. *)
Definition env_code_down : Multiagent.Env :=
  {| Multiagent.api_tags :=
       inr (200, ["mistral:7b-instruct-q4_K_M"; "codellama:7b-instruct-q4_K_M"]);
     Multiagent.generate :=
       fun _ m _ => if (Multiagent.model m =? codellama)%string
                    then inl down else inr "use a loop";
     Multiagent.capture := fun _ => inr tt;
     Multiagent.recognize_google := fun _ => inr "hi";
     Multiagent.say := fun _ _ => inr tt;
     Multiagent.post_generate := fun _ _ => inr (200, "ok") |}.

(** Counting calls of [main.py] of one kind. *)
Definition count_calls (p : Main.event -> bool) (tr : list Main.event) : nat :=
  List.length (filter p tr).

Definition is_microphone (e : Main.event) : bool :=
  match e with Main.Microphone => true | _ => false end.

Definition is_recognize (e : Main.event) : bool :=
  match e with Main.RecognizeGoogle _ => true | _ => false end.

Definition is_sleep (e : Main.event) : bool :=
  match e with Main.Sleep _ => true | _ => false end.

Definition is_tts (e : Main.event) : bool :=
  match e with Main.TtsSave _ _ _ => true | _ => false end.

(** The calls [listen] may make: opening the microphone, capturing with
    the limits 10 and 10, transcribing, and pauses of 1. *)
Definition listen_event (e : Main.event) : Prop :=
  match e with
  | Main.Microphone | Main.RecognizeGoogle _ => True
  | Main.Listen t p => t = 10 /\ p = 10
  | Main.Sleep n => n = 1
  | _ => False
  end.

(** All the calls of one capture attempt that gets as far as the last
    language. *)
Definition full_attempt : list Main.event :=
  [Main.Microphone; Main.Listen 10 10; Main.RecognizeGoogle None;
   Main.RecognizeGoogle (Some "en-US"); Main.RecognizeGoogle (Some "fa-IR")].

(** The state after a pause of one second. *)
Definition pause (st : Main.state) : Main.state :=
  {| Main.audio_counter := Main.audio_counter st;
     Main.trace := (Main.trace st ++ [Main.Sleep 1])%list |}.

(** The state after further calls. *)
Definition after (st : Main.state) (new : list Main.event) : Main.state :=
  {| Main.audio_counter := Main.audio_counter st;
     Main.trace := (Main.trace st ++ new)%list |}.

(** The audio file an agent uses when its counter is [n]. *)
Definition speech_file (self : Main.MultiAgent) (n : nat) : string :=
  Main.temp_dir self ++ "/" ++ "speech_" ++ Py.str_of_int (N.of_nat n) ++ ".mp3".

(** The files of the syntheses in a list of calls, in order. *)
Fixpoint tts_files (tr : list Main.event) : list string :=
  match tr with
  | [] => []
  | Main.TtsSave _ _ file :: tr' => file :: tts_files tr'
  | _ :: tr' => tts_files tr'
  end.

(** An environment of [main.py] whose speech synthesis always fails. *)
Definition env_mute : Main.Env :=
  {| Main.getenv := fun _ => None;
     Main.microphone := fun _ => inr tt;
     Main.capture := fun _ => inr tt;
     Main.recognize_google := fun _ _ => inr "hello";
     Main.invoke := fun _ _ _ => inr "ok";
     Main.time := fun _ => 1700000000%N;
     Main.write_file := fun _ _ _ => inr tt;
     Main.tts_save := fun _ _ _ _ => inl (Py.Exception "no network");
     Main.playsound := fun _ _ => inr tt;
     Main.remove := fun _ _ => inr tt |}.

(** The automatic transcription and the English one fail, the Persian
    one gives a text. *)
Definition env_persian : Main.Env :=
  main_env (fun _ => inr tt)
           (fun _ lang =>
              match lang with
              | Some "fa-IR" => inr "salam"
              | _ => inl Py.UnknownValueError
              end)
           (fun _ _ _ => inr "ok") (fun _ _ _ => inr tt).

(** Removing an audio file fails; everything else works. *)
Definition env_busy_files : Main.Env :=
  {| Main.getenv := fun _ => None;
     Main.microphone := fun _ => inr tt;
     Main.capture := fun _ => inr tt;
     Main.recognize_google := fun _ _ => inr "hello";
     Main.invoke := fun _ _ _ => inr "ok";
     Main.time := fun _ => 1700000000%N;
     Main.write_file := fun _ _ _ => inr tt;
     Main.tts_save := fun _ _ _ _ => inr tt;
     Main.playsound := fun _ _ => inr tt;
     Main.remove := fun _ _ => inl (Py.OSError "file in use") |}.

Definition empty_reply : string :=
  "I didn't catch that. Could you please try again?".

Definition backtick : string := "`".

(** The fences of a python block in a model's answer. *)
Definition fence_open : string := "```python" ++ Main.nl.
Definition fence_close : string := Main.nl ++ "```".

(** The code model answers without a fenced block. *)
Definition env_prose : Main.Env :=
  main_env (fun _ => inr tt) (fun _ _ => inr "run it")
           (fun _ _ _ => inr "Use ```python fences next time.")
           (fun _ _ _ => inr tt).

(** The chat model fails on the long prompt and answers the bare
    command. *)
Definition env_short_prompts : Main.Env :=
  main_env (fun _ => inr tt) (fun _ _ => inr "hello")
           (fun _ _ prompt =>
              if String.length prompt <? 20 then inr "Hi there"
              else inl (Py.Exception "prompt too long"))
           (fun _ _ _ => inr tt).

(** The two models of [main.py] when no environment variable is set. *)
Definition neural_chat : Main.Ollama :=
  {| Main.model := "neural-chat:7b-v3.3-q4_K_M";
     Main.base_url := "http://localhost:11434";
     Main.timeout := 60 |}.

Definition code_llama : Main.Ollama :=
  {| Main.model := "codellama:7b-instruct-q4_K_M";
     Main.base_url := "http://localhost:11434";
     Main.timeout := 60 |}.

(** The greeting of [run] in [main.py]. *)
Definition greeting : string :=
  "Hello! I'm your AI assistant. I can help you with general questions, internet searches, and code-related tasks. How can I help you?".

(** The reply the loop of [multiagent.py] speaks for an answer of the
    model server. *)
Definition plain_reply (status : nat) (body : string) : string :=
  if status =? 200 then body else "Sorry, I couldn't process that command.".

(** The model server of [multiagent.py] cannot be reached. *)
Definition env_post_down (text : string) : Multiagent.Env :=
  {| Multiagent.api_tags := inr (200, []);
     Multiagent.generate := fun _ _ _ => inr "ok";
     Multiagent.capture := fun _ => inr tt;
     Multiagent.recognize_google := fun _ => inr text;
     Multiagent.say := fun _ _ => inr tt;
     Multiagent.post_generate := fun _ _ => inl (Py.OSError "connection refused") |}.


(** ** The router *)

Ltac compare_nats :=
  match goal with
  | |- context [?x <? ?y] => is_var x; is_var y; destruct (Nat.ltb_spec x y)
  | |- context [?x <=? ?y] => is_var x; is_var y; destruct (Nat.leb_spec x y)
  end.


Lemma max_key_first_top (c h r a : nat) :
  Py.max_key snd [("code", c); ("chat", h); ("creative", r); ("analysis", a)]
  = inr (first_top_of c h r a,
         Nat.max (Nat.max (Nat.max c h) r) a).
Proof.
  unfold Py.max_key, Py.ret, first_top_of, Py.max_step. cbn [fold_left snd].
  repeat (compare_nats; try lia; cbn [snd andb]);
    (f_equal; apply f_equal2; [reflexivity | lia]).
Qed.

Section Router.
Import Py Multiagent.

Variable models : dict Ollama.
Variables mchat mcode : Ollama.
Hypothesis Hchat : get models "chat" = Some mchat.
Hypothesis Hcode : get models "code" = Some mcode.

Lemma scores_of_init (q : string) :
  scores_of (ModelRouter_init models) (lower q)
  = inr [("code", score "code" q); ("chat", score "chat" q);
         ("creative", score "creative" q); ("analysis", score "analysis" q)].
Proof. reflexivity. Qed.

Lemma choose_model_zero (q : string) :
  (forall k, In k categories -> score k q = 0) ->
  choose_model (ModelRouter_init models) q = inr ("chat", mchat).
Proof.
  intros Hz. unfold choose_model. rewrite scores_of_init.
  cbn [bind values map snd max ret fold_left].
  rewrite !Hz by (simpl; auto).
  cbn. unfold getitem. rewrite Hchat. reflexivity.
Qed.

Lemma first_top_cases (c h r a : nat) :
  let t := first_top_of c h r a in
  t = "code" \/ t = "chat" \/ t = "creative" \/ t = "analysis".
Proof.
  unfold first_top_of.
  destruct ((h <=? c) && (r <=? c) && (a <=? c)); auto.
  destruct ((r <=? h) && (a <=? h)); auto.
  destruct (a <=? r); auto.
Qed.

Lemma choose_model_nonzero (q : string) :
  (exists k, In k categories /\ 0 < score k q) ->
  choose_model (ModelRouter_init models) q
  = inr (first_top q, if (first_top q =? "code")%string then mcode else mchat).
Proof.
  intros [k [Hk Hpos]]. unfold choose_model. rewrite scores_of_init.
  cbn [bind values map snd max ret fold_left].
  unfold items. rewrite max_key_first_top. cbn [bind fst].
  fold (first_top q).
  assert (Hne : Nat.max (Nat.max (Nat.max (score "code" q) (score "chat" q))
                                 (score "creative" q)) (score "analysis" q) <> 0).
  { simpl in Hk. destruct Hk as [<- | [<- | [<- | [<- | []]]]]; lia. }
  apply Nat.eqb_neq in Hne. rewrite Hne.
  destruct (first_top_cases (score "code" q) (score "chat" q)
              (score "creative" q) (score "analysis" q)) as [H | [H | [H | H]]];
    fold (first_top q) in H; rewrite H; cbn; unfold getitem;
    rewrite ?Hchat, ?Hcode; reflexivity.
Qed.

Lemma first_top_in (q : string) : In (first_top q) categories.
Proof.
  destruct (first_top_cases (score "code" q) (score "chat" q)
              (score "creative" q) (score "analysis" q)) as [H | [H | [H | H]]];
    unfold first_top; rewrite H; simpl; auto.
Qed.

Lemma first_top_is_top (q : string) : is_top q (first_top q).
Proof.
  intros k Hk. unfold first_top, first_top_of.
  simpl in Hk. destruct Hk as [<- | [<- | [<- | [<- | []]]]];
    remember (score "code" q) as c eqn:Ec;
    remember (score "chat" q) as h eqn:Eh;
    remember (score "creative" q) as r eqn:Er;
    remember (score "analysis" q) as a eqn:Ea;
    repeat (compare_nats; try lia; cbn [andb]);
    rewrite <- ?Ec, <- ?Eh, <- ?Er, <- ?Ea; lia.
Qed.

Lemma scores_zero_or_not (q : string) :
  (forall k, In k categories -> score k q = 0)
  \/ (exists k, In k categories /\ 0 < score k q).
Proof.
  destruct (score "code" q) eqn:Hc;
    [| right; exists "code"; split; [simpl; auto | lia]].
  destruct (score "chat" q) eqn:Hh;
    [| right; exists "chat"; split; [simpl; auto | lia]].
  destruct (score "creative" q) eqn:Hr;
    [| right; exists "creative"; split; [simpl; auto | lia]].
  destruct (score "analysis" q) eqn:Ha;
    [| right; exists "analysis"; split; [simpl; auto | lia]].
  left. intros k Hk. simpl in Hk.
  destruct Hk as [<- | [<- | [<- | [<- | []]]]]; assumption.
Qed.

Lemma choose_model_total (q : string) :
  exists t,
    In t categories
    /\ choose_model (ModelRouter_init models) q
       = inr (t, if (t =? "code")%string then mcode else mchat).
Proof.
  destruct (scores_zero_or_not q) as [Hz | Hpos].
  - exists "chat". split; [simpl; auto | now apply choose_model_zero].
  - exists (first_top q). split; [apply first_top_in |].
    now apply choose_model_nonzero.
Qed.

Lemma first_top_least (q k : string) :
  In k categories -> is_top q k -> table_index (first_top q) <= table_index k.
Proof.
  intros Hk Htop.
  assert (Hc := Htop "code" ltac:(simpl; auto)).
  assert (Hh := Htop "chat" ltac:(simpl; auto)).
  assert (Hr := Htop "creative" ltac:(simpl; auto)).
  assert (Ha := Htop "analysis" ltac:(simpl; auto)).
  clear Htop. unfold first_top, first_top_of.
  simpl in Hk. destruct Hk as [<- | [<- | [<- | [<- | []]]]];
    remember (score "code" q) as c eqn:Ec;
    remember (score "chat" q) as h eqn:Eh;
    remember (score "creative" q) as r eqn:Er;
    remember (score "analysis" q) as a eqn:Ea;
    repeat (compare_nats; try lia; cbn [andb]);
    cbn; lia.
Qed.

End Router.

(** C1, as amended: when some category has a nonzero count,
    [choose_model] returns a category with the highest count, and among
    the categories that tie for it the first one in the order of the
    [scores] dict: code, chat, creative, analysis (so equal nonzero counts
    for code and chat give code). *)
Theorem tie_break_follows_table_order
  (models : Py.dict Multiagent.Ollama) (mchat mcode : Multiagent.Ollama)
  (q : string) :
  Py.get models "chat" = Some mchat ->
  Py.get models "code" = Some mcode ->
  (exists k, In k categories /\ 0 < score k q) ->
  exists t m,
    Multiagent.choose_model (Multiagent.ModelRouter_init models) q = inr (t, m)
    /\ In t categories
    /\ is_top q t
    /\ forall k, In k categories -> is_top q k ->
                 table_index t <= table_index k.
Proof.
  intros Hchat Hcode Hpos.
  exists (first_top q), (if (first_top q =? "code")%string then mcode else mchat).
  split; [apply choose_model_nonzero; assumption|].
  split; [apply first_top_in|].
  split; [apply first_top_is_top|].
  intros k Hk Htop. now apply first_top_least.
Qed.

Lemma tie_break_follows_table_order_witness :
  exists t m,
    Multiagent.choose_model (Multiagent.ModelRouter_init models0) "code chat"
    = inr (t, m)
    /\ In t categories
    /\ is_top "code chat" t
    /\ forall k, In k categories -> is_top "code chat" k ->
                 table_index t <= table_index k.
Proof.
  apply (tie_break_follows_table_order models0
           mistral {| Multiagent.model := codellama |}).
  - reflexivity.
  - reflexivity.
  - exists "code". split; [simpl; auto | vm_compute; lia].
Defined.

(** C1, as the specification states it, fails: "code chat" counts one
    match for code and one for chat, and is classified as code. *)
Lemma tie_code_chat_goes_to_code :
  ~ spec_tie_break (Multiagent.ModelRouter_init models0) "code chat".
Proof.
  intros H.
  assert (Hcode : is_top "code chat" "code").
  { intros k Hk. simpl in Hk.
    destruct Hk as [<- | [<- | [<- | [<- | []]]]]; vm_compute; lia. }
  assert (Hchat : is_top "code chat" "chat").
  { intros k Hk. simpl in Hk.
    destruct Hk as [<- | [<- | [<- | [<- | []]]]]; vm_compute; lia. }
  destruct (H "code" "chat") as [t [m [Hres [_ Hpri]]]];
    [simpl; auto | simpl; auto | discriminate | assumption | assumption
    | vm_compute; lia |].
  vm_compute in Hres. injection Hres as <- _.
  specialize (Hpri "chat" ltac:(simpl; auto) Hchat).
  vm_compute in Hpri. lia.
Qed.




(** C6: when no category matches the lowercased input at all,
    [choose_model] returns the category chat with the chat model, and
    does not raise; the empty input is such an input. *)
Theorem no_match_defaults_to_chat
  (models : Py.dict Multiagent.Ollama) (mchat : Multiagent.Ollama)
  (q : string) :
  Py.get models "chat" = Some mchat ->
  (forall k, In k categories -> score k q = 0) ->
  Multiagent.choose_model (Multiagent.ModelRouter_init models) q
  = inr ("chat", mchat).
Proof.
  intros Hchat Hz. now apply choose_model_zero.
Qed.

Lemma no_match_defaults_to_chat_witness :
  Multiagent.choose_model (Multiagent.ModelRouter_init models0) ""
  = inr ("chat", mistral).
Proof.
  apply (no_match_defaults_to_chat models0 mistral "").
  - reflexivity.
  - intros k Hk. simpl in Hk.
    destruct Hk as [<- | [<- | [<- | [<- | []]]]]; reflexivity.
Defined.

(** ** The assistant of multiagent.py *)

Section Assistant.
Import Py Multiagent.

Variable E : Env.
Variable a : MultiAgentAssistant.
Hypothesis Hinit : MultiAgentAssistant_init E = inr a.

Lemma init_shape :
  exists mchat mcode,
    models a = [("chat", mchat); ("code", mcode)]
    /\ router a = ModelRouter_init (models a)
    /\ chains a = [("chat", chat_chain mchat); ("code", code_chain mcode)]
    /\ available_models a = _check_available_models E
    /\ model mchat <> codellama
    /\ (if mem codellama (available_models a)
        then mcode = {| model := codellama |}
        else mcode = mchat).
Proof.
  revert Hinit. unfold MultiAgentAssistant_init.
  set (avail := _check_available_models E).
  destruct (mem "mistral:7b-instruct-q4_K_M" avail);
    [| destruct (mem "neural-chat:7b-v3.3-q4_K_M" avail);
       [| destruct (mem "llama2:7b-chat-q4_K_M" avail);
          [| cbn; discriminate]]];
    (destruct (mem "codellama:7b-instruct-q4_K_M" avail) eqn:Hc;
     cbn; intros H; injection H as <-;
     cbn [models router chains available_models]; do 2 eexists;
     repeat split; try reflexivity; try discriminate;
     unfold codellama; rewrite Hc; reflexivity).
Qed.

Lemma process_query_unfold (mchat mcode : Ollama) (q t : string) (m : Ollama)
  (tr : list event) :
  chains a = [("chat", chat_chain mchat); ("code", code_chain mcode)] ->
  choose_model (router a) q = inr (t, m) ->
  In t categories ->
  let chain := chain_for mchat mcode t in
  process_query E a q tr
  = match generate E tr (llm chain) (template chain ++ q) with
    | inr resp => (inr resp, (tr ++ [Arun chain q])%list)
    | inl e =>
        if (t =? "chat")%string then (inl e, (tr ++ [Arun chain q])%list)
        else (generate E (tr ++ [Arun chain q])%list mchat
                (template (chat_chain mchat) ++ q),
              ((tr ++ [Arun chain q]) ++ [Arun (chat_chain mchat) q])%list)
    end.
Proof.
  intros Hch Hcm Ht. unfold process_query, io_bind, lift, try_except.
  rewrite Hcm, Hch. cbn [fst].
  simpl in Ht. destruct Ht as [<- | [<- | [<- | [<- | []]]]];
    cbn -[append app]; unfold arun, call, chain_for; cbn -[append app];
    match goal with
    | |- context [generate E tr ?m ?p] => destruct (generate E tr m p)
    end; reflexivity.
Qed.

End Assistant.

Lemma process_query_cases
  (E : Multiagent.Env) (a : Multiagent.MultiAgentAssistant) (q : string) :
  Multiagent.MultiAgentAssistant_init E = inr a ->
  exists t mchat mcode,
    In t categories
    /\ Multiagent.models a = [("chat", mchat); ("code", mcode)]
    /\ Multiagent.chains a = [("chat", chat_chain mchat); ("code", code_chain mcode)]
    /\ Multiagent.model mchat <> codellama
    /\ (if Py.mem codellama (Multiagent.available_models a)
        then mcode = {| Multiagent.model := codellama |}
        else mcode = mchat)
    /\ Multiagent.choose_model (Multiagent.router a) q
       = inr (t, if (t =? "code")%string then mcode else mchat).
Proof.
  intros Hinit.
  destruct (init_shape E a Hinit)
    as [mchat [mcode [Hm [Hr [Hc [_ [Hne Hdown]]]]]]].
  destruct (choose_model_total (Multiagent.models a) mchat mcode) with (q := q)
    as [t [Ht Hres]]; [rewrite Hm; reflexivity | rewrite Hm; reflexivity |].
  exists t, mchat, mcode. rewrite Hr. repeat split; assumption.
Qed.

(** C4: when the dedicated code model is not served, the key "code" is
    bound to the general (chat) model, and a query classified as code whose
    prompt that model answers is answered by [process_query] with that
    answer, after a single invocation of the general model. *)
Theorem code_downgrades_to_general
  (E : Multiagent.Env) (a : Multiagent.MultiAgentAssistant) (q : string)
  (tr : list Multiagent.event) (m : Multiagent.Ollama) (resp : string) :
  Multiagent.MultiAgentAssistant_init E = inr a ->
  Py.mem codellama (Multiagent.available_models a) = false ->
  Multiagent.choose_model (Multiagent.router a) q = inr ("code", m) ->
  Multiagent.generate E tr m ("You are an expert programmer. " ++ q) = inr resp ->
  exists general,
    Py.getitem (Multiagent.models a) "chat" = inr general
    /\ Py.getitem (Multiagent.models a) "code" = inr general
    /\ m = general
    /\ Multiagent.process_query E a q tr
       = (inr resp, (tr ++ [Multiagent.Arun (code_chain general) q])%list).
Proof.
  intros Hinit Hno Hcm Hgen.
  destruct (process_query_cases E a q Hinit)
    as [t [mchat [mcode [Ht [Hm [Hc [_ [Hdown Hres]]]]]]]].
  rewrite Hno in Hdown. subst mcode.
  rewrite Hcm in Hres. injection Hres as <- ->.
  exists mchat. rewrite Hm. repeat split.
  rewrite (process_query_unfold E a mchat mchat q "code" mchat tr Hc Hcm Ht).
  unfold chain_for. cbn -[append app]. cbn -[append app] in Hgen.
  rewrite Hgen. reflexivity.
Qed.

Lemma code_downgrades_to_general_witness :
  exists general,
    Py.getitem (Multiagent.models (started env_general_only)) "chat"
    = inr general
    /\ Py.getitem (Multiagent.models (started env_general_only)) "code"
       = inr general
    /\ llama2 = general
    /\ Multiagent.process_query env_general_only (started env_general_only)
         "fix the bug" []
       = (inr "def f(): pass",
          [Multiagent.Arun (code_chain general) "fix the bug"]).
Proof.
  apply (code_downgrades_to_general env_general_only
           (started env_general_only) "fix the bug" [] llama2
           "def f(): pass");
    reflexivity.
Defined.

(** The calls [process_query] adds when every invocation fails. *)
Lemma process_query_all_fail
  (E : Multiagent.Env) (a : Multiagent.MultiAgentAssistant) (q : string)
  (tr : list Multiagent.event) (fail : Multiagent.Ollama -> Py.exn) :
  Multiagent.MultiAgentAssistant_init E = inr a ->
  (forall tr' m p, Multiagent.generate E tr' m p = inl (fail m)) ->
  exists t m mchat mcode,
    Multiagent.choose_model (Multiagent.router a) q = inr (t, m)
    /\ In t categories
    /\ Multiagent.models a = [("chat", mchat); ("code", mcode)]
    /\ Multiagent.process_query E a q tr
       = (inl (fail mchat),
          (tr ++ (if (t =? "chat")%string
                  then [Multiagent.Arun (chat_chain mchat) q]
                  else [Multiagent.Arun (chain_for mchat mcode t) q;
                        Multiagent.Arun (chat_chain mchat) q]))%list).
Proof.
  intros Hinit Hfail.
  destruct (process_query_cases E a q Hinit)
    as [t [mchat [mcode [Ht [Hm [Hc [_ [_ Hres]]]]]]]].
  exists t. eexists. exists mchat, mcode.
  split; [exact Hres |]. split; [exact Ht |]. split; [exact Hm |].
  rewrite (process_query_unfold E a mchat mcode q t _ tr Hc Hres Ht).
  cbv zeta. rewrite !Hfail.
  simpl in Ht. destruct Ht as [<- | [<- | [<- | [<- | []]]]];
    cbn -[append app]; rewrite <- ?app_assoc; reflexivity.
Qed.

(** C3, as amended: when every invocation fails, [process_query] raises
    the error of the chat model, the last one tried (one exception, not a
    list of errors), after exactly one attempt for a query classified as
    chat and exactly two for any other category; for a query classified as
    code these are the code chain and then the chat chain. *)
Theorem exhaustion_attempts
  (E : Multiagent.Env) (a : Multiagent.MultiAgentAssistant) (q : string)
  (tr : list Multiagent.event) (fail : Multiagent.Ollama -> Py.exn) :
  Multiagent.MultiAgentAssistant_init E = inr a ->
  (forall tr' m p, Multiagent.generate E tr' m p = inl (fail m)) ->
  exists t m mchat mcode new,
    Multiagent.choose_model (Multiagent.router a) q = inr (t, m)
    /\ In t categories
    /\ Multiagent.models a = [("chat", mchat); ("code", mcode)]
    /\ Multiagent.process_query E a q tr = (inl (fail mchat), (tr ++ new)%list)
    /\ List.length new = (if (t =? "chat")%string then 1 else 2)
    /\ (t = "chat" -> new = [Multiagent.Arun (chat_chain mchat) q])
    /\ (t = "code" ->
        new = [Multiagent.Arun (code_chain mcode) q;
               Multiagent.Arun (chat_chain mchat) q]).
Proof.
  intros Hinit Hfail.
  destruct (process_query_all_fail E a q tr fail Hinit Hfail)
    as [t [m [mchat [mcode [Hres [Ht [Hm Hpq]]]]]]].
  exists t, m, mchat, mcode. eexists.
  split; [exact Hres |]. split; [exact Ht |]. split; [exact Hm |].
  split; [exact Hpq |].
  split; [destruct (t =? "chat")%string; reflexivity |].
  split; intros ->; reflexivity.
Qed.

Lemma exhaustion_attempts_witness :
  exists t m mchat mcode new,
    Multiagent.choose_model (Multiagent.router (started env_all_down))
      "fix the bug" = inr (t, m)
    /\ In t categories
    /\ Multiagent.models (started env_all_down)
       = [("chat", mchat); ("code", mcode)]
    /\ Multiagent.process_query env_all_down (started env_all_down)
         "fix the bug" [] = (inl down, new)
    /\ List.length new = (if (t =? "chat")%string then 1 else 2)
    /\ (t = "chat" -> new = [Multiagent.Arun (chat_chain mchat) "fix the bug"])
    /\ (t = "code" ->
        new = [Multiagent.Arun (code_chain mcode) "fix the bug";
               Multiagent.Arun (chat_chain mchat) "fix the bug"]).
Proof.
  apply (exhaustion_attempts env_all_down (started env_all_down)
           "fix the bug" [] (fun _ => down)).
  - reflexivity.
  - intros tr' m p. reflexivity.
Defined.

(** C3, as the specification states it, fails for a query classified as
    chat: its route has two roles, and one attempt is made. *)
Lemma chat_exhaustion_single_attempt :
  Multiagent.MultiAgentAssistant_init env_all_down = inr (started env_all_down)
  /\ Multiagent.choose_model (Multiagent.router (started env_all_down)) "help me"
     = inr ("chat", mistral)
  /\ Multiagent.process_query env_all_down (started env_all_down) "help me" []
     = (inl down, [Multiagent.Arun (chat_chain mistral) "help me"])
  /\ List.length
       (snd (Multiagent.process_query env_all_down (started env_all_down)
               "help me" []))
     <> List.length (spec_route "chat").
Proof.
  repeat split; try reflexivity. vm_compute. discriminate.
Qed.

(** ** Speech output of main.py *)

Section Speak.
Import Py Main.

Variable E : Env.
Variable self : MultiAgent.

Lemma speak_loop_calls (text : string) (max_retries : nat)
  (attempts : list nat) :
  forall st, exists n new,
    speak_loop E self text max_retries attempts st
    = (inr tt, {| audio_counter := n; trace := (trace st ++ new)%list |})
    /\ Forall (speak_event text) new.
Proof.
  induction attempts as [| attempt attempts IH]; intros st.
  - exists (audio_counter st), []. cbn. rewrite app_nil_r.
    destruct st; split; [reflexivity | constructor].
  - cbn [speak_loop]. unfold io_bind at 1. unfold try_except.
    unfold speak_once, io_bind, incr_audio_counter, call, sleep, call, io_ret.
    cbn -[append app str_of_int Nat.eqb Nat.sub].
    destruct (tts_save E (trace st) text (tts_lang text) _) as [e | []];
      [| destruct (playsound E _ _) as [e | []];
         [| destruct (remove E _ _) as [e | []];
            rewrite <- !app_assoc; eexists _, _;
            (split; [reflexivity |]);
            repeat (constructor; [cbn; auto |]); constructor]].
    all: destruct (attempt =? max_retries - 1);
      cbn -[append app str_of_int Nat.eqb Nat.sub].
    all: edestruct IH as [n [new [Heq Hall]]]; rewrite Heq;
       cbn [trace]; rewrite <- !app_assoc;
       eexists _, _; (split; [reflexivity |]);
       repeat (constructor; [cbn; auto |]); exact Hall.
Qed.

End Speak.

Lemma invokes_app (tr1 tr2 : list Main.event) :
  invokes (tr1 ++ tr2) = (invokes tr1 ++ invokes tr2)%list.
Proof.
  induction tr1 as [| e tr1 IH]; [reflexivity |].
  destruct e; cbn; rewrite ?IH; reflexivity.
Qed.

Lemma speak_events_no_invoke (text : string) (new : list Main.event) :
  Forall (speak_event text) new -> invokes new = [].
Proof.
  induction 1 as [| e new He _ IH]; [reflexivity |].
  destruct e; cbn in He |- *; try contradiction; exact IH.
Qed.

(** [speak] returns normally whatever the speech services do, and invokes
    no model. *)
Lemma speak_returns (E : Main.Env) (self : Main.MultiAgent) (text : string)
  (st : Main.state) :
  exists n new,
    Main.speak E self text st
    = (inr tt, {| Main.audio_counter := n;
                  Main.trace := (Main.trace st ++ new)%list |})
    /\ Forall (speak_event text) new.
Proof. apply speak_loop_calls. Qed.

Lemma tts_lang_en (text : string) :
  Main.tts_lang text = "en"
  <-> exists c, In c (list_ascii_of_string text) /\ Py.ord c < 128.
Proof.
  unfold Main.tts_lang, Py.any.
  destruct (existsb _ _) eqn:Hex.
  - split; [intros _ | reflexivity].
    apply existsb_exists in Hex. destruct Hex as [c [Hin Hlt]].
    exists c. split; [exact Hin | now apply Nat.ltb_lt].
  - split; [discriminate |].
    intros [c [Hin Hlt]]. exfalso.
    assert (Ht : existsb (fun c => Py.ord c <? 128) (list_ascii_of_string text) = true).
    { apply existsb_exists. exists c. split; [exact Hin | now apply Nat.ltb_lt]. }
    congruence.
Qed.

Lemma tts_lang_fa (text : string) :
  Main.tts_lang text = "fa"
  <-> forall c, In c (list_ascii_of_string text) -> 128 <= Py.ord c.
Proof.
  split.
  - intros Hfa c Hin.
    destruct (Nat.lt_ge_cases (Py.ord c) 128) as [Hlt | Hge]; [| exact Hge].
    assert (Hen : Main.tts_lang text = "en").
    { apply tts_lang_en. now exists c. }
    rewrite Hen in Hfa. discriminate.
  - intros Hall. unfold Main.tts_lang, Py.any.
    destruct (existsb _ _) eqn:Hex; [| reflexivity].
    apply existsb_exists in Hex. destruct Hex as [c [Hin Hlt]].
    apply Nat.ltb_lt in Hlt. specialize (Hall c Hin). lia.
Qed.

(** C9, as amended: the language of the synthesis is "en" exactly when
    the text has at least one character below 128, and "fa" exactly when
    it has none (the empty text included); [speak] computes it from the
    text alone, and every synthesis it requests is of that text in that
    language. *)
Theorem speech_locale_by_ascii_presence
  (E : Main.Env) (self : Main.MultiAgent) (text : string) (st : Main.state) :
  (Main.tts_lang text = "en"
   <-> exists c, In c (list_ascii_of_string text) /\ Py.ord c < 128)
  /\ (Main.tts_lang text = "fa"
      <-> forall c, In c (list_ascii_of_string text) -> 128 <= Py.ord c)
  /\ exists new,
       Main.trace (snd (Main.speak E self text st))
       = (Main.trace st ++ new)%list
       /\ Forall (fun e => forall t l f,
                    e = Main.TtsSave t l f -> t = text /\ l = Main.tts_lang text)
                 new.
Proof.
  split; [apply tts_lang_en |]. split; [apply tts_lang_fa |].
  destruct (speak_returns E self text st) as [n [new [Heq Hall]]].
  exists new. rewrite Heq. split; [reflexivity |].
  eapply Forall_impl; [| exact Hall].
  intros e He t l f ->. exact He.
Qed.

(** C9, as the specification states it, fails: a text with a non-ASCII
    letter and an ASCII one is synthesized in English. *)
Lemma mixed_text_routes_to_english :
  Main.tts_lang cafe = "en" /\ ~ non_ascii_routes_to_fa cafe.
Proof.
  split; [reflexivity |].
  intros H.
  assert (Hfa : Main.tts_lang cafe = "fa").
  { apply H. exists (ascii_of_nat 233). split; [| vm_compute; lia].
    cbn. auto. }
  vm_compute in Hfa. discriminate.
Qed.

(** ** Speech capture of main.py *)

Section Listen.
Import Py Main.

Variable E : Env.

Lemma listen_once_fails (st : state) (f : capture_failure) :
  fails_with E (trace st) f ->
  listen_once E st
  = (inl (failure_exn f),
     {| audio_counter := audio_counter st;
        trace := (trace st ++ attempt_calls f)%list |}).
Proof.
  intros [Hmic Hf].
  unfold listen_once, io_bind, try_except, call. cbn [trace audio_counter].
  rewrite Hmic.
  destruct f.
  - rewrite Hf. rewrite <- app_assoc. reflexivity.
  - destruct Hf as [Hcap [Hrec [[e1 H1] [e2 H2]]]].
    rewrite Hcap. rewrite <- ?app_assoc. cbn [app].
    rewrite Hrec.
    cbn [recognize_languages]. unfold io_bind, try_except, call, io_ret, io_raise.
    cbn [trace audio_counter]. rewrite <- ?app_assoc. cbn [app].
    rewrite H1. cbn [trace audio_counter]. rewrite <- ?app_assoc. cbn [app].
    rewrite H2. cbn [trace audio_counter]. rewrite <- ?app_assoc. reflexivity.
  - destruct Hf as [Hcap [Hrec [[e1 H1] [e2 H2]]]].
    rewrite Hcap. rewrite <- ?app_assoc. cbn [app].
    rewrite Hrec.
    cbn [recognize_languages]. unfold io_bind, try_except, call, io_ret, io_raise.
    cbn [trace audio_counter]. rewrite <- ?app_assoc. cbn [app].
    rewrite H1. cbn [trace audio_counter]. rewrite <- ?app_assoc. cbn [app].
    rewrite H2. cbn [trace audio_counter]. rewrite <- ?app_assoc. reflexivity.
Qed.

(** One round of the loop of [listen] whose attempt fails. *)
Lemma listen_loop_failed_round (st : state) (f : capture_failure)
  (max_retries attempt : nat) (attempts : list nat) :
  fails_with E (trace st) f ->
  listen_loop E max_retries (attempt :: attempts) st
  = listen_loop E max_retries attempts
      {| audio_counter := audio_counter st;
         trace := (trace st ++ attempt_calls f
                   ++ (if attempt <? max_retries - 1 then [Sleep 1] else []))%list |}.
Proof.
  intros Hf. cbn [listen_loop]. unfold io_bind at 1. unfold try_except.
  unfold io_bind at 1. rewrite (listen_once_fails st f Hf).
  destruct f; cbn [failure_exn listen_handler]; unfold io_ret;
    unfold io_bind; destruct (attempt <? max_retries - 1);
    unfold sleep, call, io_ret; cbn [trace audio_counter];
    rewrite <- ?app_assoc, ?app_nil_r; reflexivity.
Qed.

End Listen.

(** C8: whichever of the three failures each attempt meets (nothing
    heard, not transcribable, transport failure), [listen] makes exactly
    three attempts with a pause of 1 between two attempts and none after
    the last, and returns [None]; the loop of [run] then makes no further
    call (the command is not dispatched) and goes on to the next capture. *)
Theorem capture_gives_up_after_three_attempts
  (E : Main.Env) (self : Main.MultiAgent) (st : Main.state)
  (f1 f2 f3 : capture_failure) :
  fails_with E (Main.trace st) f1 ->
  fails_with E (Main.trace st ++ attempt_calls f1 ++ [Main.Sleep 1]) f2 ->
  fails_with E (Main.trace st ++ attempt_calls f1 ++ [Main.Sleep 1]
                ++ attempt_calls f2 ++ [Main.Sleep 1]) f3 ->
  let final :=
    {| Main.audio_counter := Main.audio_counter st;
       Main.trace := (Main.trace st ++ attempt_calls f1 ++ [Main.Sleep 1]
                      ++ attempt_calls f2 ++ [Main.Sleep 1]
                      ++ attempt_calls f3)%list |} in
  Main.listen E st = (inr None, final)
  /\ Main.run_body E self st = (inr Continue, final).
Proof.
  intros H1 H2 H3 final.
  assert (Hl : Main.listen E st = (inr None, final)).
  { unfold Main.listen. cbn [seq].
    rewrite (listen_loop_failed_round E st f1) by exact H1.
    rewrite (listen_loop_failed_round E _ f2) by exact H2.
    rewrite (listen_loop_failed_round E _ f3)
      by (cbn [Main.trace]; rewrite <- ?app_assoc; exact H3).
    cbn [Main.listen_loop Main.trace Main.audio_counter Nat.ltb Nat.leb Nat.sub].
    unfold io_ret, final. rewrite <- ?app_assoc, ?app_nil_r. reflexivity. }
  split; [exact Hl |].
  unfold Main.run_body, io_bind. rewrite Hl. reflexivity.
Qed.

Lemma capture_gives_up_after_three_attempts_witness :
  Main.listen env_no_speech fresh
  = (inr None,
     {| Main.audio_counter := 0;
        Main.trace :=
          (attempt_calls NoInput ++ [Main.Sleep 1]
           ++ attempt_calls Untranscribable ++ [Main.Sleep 1]
           ++ attempt_calls (TransportFailure "network"))%list |})
  /\ Main.run_body env_no_speech (Main.MultiAgent_init env_no_speech "/tmp/agent")
       fresh
     = (inr Continue,
        {| Main.audio_counter := 0;
           Main.trace :=
             (attempt_calls NoInput ++ [Main.Sleep 1]
              ++ attempt_calls Untranscribable ++ [Main.Sleep 1]
              ++ attempt_calls (TransportFailure "network"))%list |}).
Proof.
  apply (capture_gives_up_after_three_attempts env_no_speech
           (Main.MultiAgent_init env_no_speech "/tmp/agent") fresh
           NoInput Untranscribable (TransportFailure "network")).
  - split; reflexivity.
  - split; [reflexivity |]. cbn.
    repeat split; try reflexivity; eexists; reflexivity.
  - split; [reflexivity |]. cbn.
    repeat split; try reflexivity; eexists; reflexivity.
Defined.

(** ** Command processing of main.py *)

Lemma startswith_app (p x s : string) :
  Py.startswith (p ++ x) s = true -> Py.startswith p s = true.
Proof.
  revert s. induction p as [| a p IH]; intros s H; [reflexivity |].
  destruct s as [| b s]; [discriminate |].
  cbn in H |- *. apply andb_true_iff in H. destruct H as [Hab Hps].
  rewrite Hab. cbn. now apply IH.
Qed.

Lemma after_first_contains (p x s rest : string) :
  Main.after_first (p ++ x) s = Some rest -> Py.contains p s = true.
Proof.
  induction s as [| c s IH]; cbn [Main.after_first Py.contains].
  - destruct (Py.startswith (p ++ x) "") eqn:Hs; [| discriminate].
    intros _. rewrite (startswith_app _ _ _ Hs). reflexivity.
  - destruct (Py.startswith (p ++ x) (String c s)) eqn:Hs.
    + intros _. rewrite (startswith_app _ _ _ Hs). reflexivity.
    + intros H. rewrite (IH H). apply orb_true_r.
Qed.

Lemma first_code_block_fenced (resp block : string) :
  Main.first_code_block resp = Some block ->
  Py.contains "```python" resp = true.
Proof.
  unfold Main.first_code_block.
  destruct (Main.after_first _ resp) eqn:Ha; [| discriminate].
  intros _. exact (after_first_contains _ _ _ _ Ha).
Qed.

Section Command.
Import Py Main.

Variable E : Env.
Variable self : MultiAgent.
Variables chat code : Ollama.
Hypothesis Hchat : get (models self) "chat" = Some chat.
Hypothesis Hcode : get (models self) "code" = Some code.

Lemma process_command_code (c : ascii) (s : string) (st : state) :
  let command := String c s in
  is_code_query command = true ->
  process_command E self (Some command) st
  = try_except (code_branch E self command)
      (fun _ => io_ret code_error_reply) st.
Proof.
  intros command Hq. subst command. unfold process_command.
  fold (is_code_query (String c s)). rewrite Hq.
  unfold try_except, io_ret.
  destruct (code_branch E self (String c s) st) as [[e | r] st'];
    reflexivity.
Qed.

Lemma process_command_chat (c : ascii) (s : string) (st : state) :
  let command := String c s in
  is_code_query command = false ->
  process_command E self (Some command) st
  = try_except (chat_branch E self command)
      (fun _ => io_ret command_error_reply) st.
Proof.
  intros command Hq. subst command. unfold process_command.
  fold (is_code_query (String c s)). rewrite Hq. reflexivity.
Qed.

(** The code branch when the model answers with a fenced block. *)
Lemma code_branch_block (command resp block : string) (st : state) :
  invoke E (trace st) code (code_prompt command) = inr resp ->
  first_code_block resp = Some block ->
  let tr1 := (trace st ++ [Invoke code (code_prompt command)])%list in
  let script_name := script_name_at E tr1 in
  code_branch E self command st
  = (match write_file E (tr1 ++ [Time]) script_name block with
     | inr _ => inr (saved_reply resp script_name)
     | inl e => inl e
     end,
     {| audio_counter := audio_counter st;
        trace := (tr1 ++ [Time] ++ [WriteFile script_name block])%list |}).
Proof.
  intros Hinv Hblock tr1 script_name.
  unfold code_branch, io_bind, lift, getitem, call.
  rewrite Hcode. cbn [ret trace audio_counter]. rewrite Hinv.
  rewrite (first_code_block_fenced _ _ Hblock), Hblock.
  cbn [ret trace audio_counter]. fold tr1.
  rewrite <- app_assoc. subst script_name. unfold script_name_at.
  destruct (write_file E _ _ block) as [e | []]; reflexivity.
Qed.

End Command.

(** C7, as amended: when the code model answers a code query with a text
    that holds a fenced python block, the first block is written to
    [generated_script_<time>.py]; if the write succeeds the reply is the
    answer followed by a notice that names the file, and if the write
    fails the answer is dropped and the reply is the fixed message of the
    code branch. *)
Theorem code_block_saved_or_answer_dropped
  (E : Main.Env) (self : Main.MultiAgent) (code : Main.Ollama)
  (c : ascii) (s resp block : string) (st : Main.state) :
  let command := String c s in
  let tr1 := (Main.trace st ++ [Main.Invoke code (Main.code_prompt command)])%list in
  let script_name := script_name_at E tr1 in
  Py.get (Main.models self) "code" = Some code ->
  is_code_query command = true ->
  Main.invoke E (Main.trace st) code (Main.code_prompt command) = inr resp ->
  Main.first_code_block resp = Some block ->
  Main.process_command E self (Some command) st
  = (inr (match Main.write_file E (tr1 ++ [Main.Time]) script_name block with
          | inr _ => saved_reply resp script_name
          | inl _ => code_error_reply
          end),
     {| Main.audio_counter := Main.audio_counter st;
        Main.trace :=
          (tr1 ++ [Main.Time] ++ [Main.WriteFile script_name block])%list |}).
Proof.
  intros command tr1 script_name Hcode Hq Hinv Hblock.
  subst command. rewrite (process_command_code E self c s st Hq).
  unfold try_except.
  rewrite (code_branch_block E self code Hcode (String c s) resp block st
             Hinv Hblock).
  fold tr1. fold script_name.
  destruct (Main.write_file E _ script_name block) as [e | u]; reflexivity.
Qed.

Lemma code_block_saved_or_answer_dropped_witness :
  Main.process_command (env_disk true) (agent_of (env_disk true))
    (Some "write code") fresh
  = (inr (saved_reply fenced_answer "generated_script_1700000000.py"),
     {| Main.audio_counter := 0;
        Main.trace :=
          [Main.Invoke
             {| Main.model := "codellama:7b-instruct-q4_K_M";
                Main.base_url := "http://localhost:11434";
                Main.timeout := 60 |}
             (Main.code_prompt "write code");
           Main.Time;
           Main.WriteFile "generated_script_1700000000.py" "print(42)"] |}).
Proof.
  apply (code_block_saved_or_answer_dropped (env_disk true)
           (agent_of (env_disk true))
           {| Main.model := "codellama:7b-instruct-q4_K_M";
              Main.base_url := "http://localhost:11434";
              Main.timeout := 60 |}
           "w" "rite code" fenced_answer "print(42)" fresh);
    reflexivity.
Defined.

(** C7, as the specification states it, fails: with a disk that cannot
    be written the caller gets the fixed message, not the model's
    answer. *)
Lemma failed_write_drops_answer :
  fst (Main.process_command (env_disk false) (agent_of (env_disk false))
         (Some "write code") fresh)
  = inr code_error_reply
  /\ ~ response_survives_failed_write (env_disk false)
         (agent_of (env_disk false)) "write code" fresh.
Proof.
  split; [vm_compute; reflexivity |].
  intros H.
  destruct (H {| Main.model := "codellama:7b-instruct-q4_K_M";
                 Main.base_url := "http://localhost:11434";
                 Main.timeout := 60 |}
              fenced_answer "print(42)" (Py.OSError "Read-only file system"))
    as [out [Hout Hin]]; try reflexivity.
  vm_compute in Hout. injection Hout as <-.
  vm_compute in Hin. discriminate.
Qed.

(** ** Invocations made for one command *)

Section QueryCalls.
Import Py Multiagent.

Variable E : Env.
Variable a : MultiAgentAssistant.
Hypothesis Hinit : MultiAgentAssistant_init E = inr a.

Lemma chains_differ (m1 m2 : Ollama) : code_chain m1 <> chat_chain m2.
Proof. unfold code_chain, chat_chain. intros H. discriminate. Qed.

Lemma process_query_calls (q t : string) (m : Ollama) (tr : list event) :
  choose_model (router a) q = inr (t, m) ->
  t = "chat" \/ t = "code" ->
  exists new,
    snd (process_query E a q tr) = (tr ++ new)%list
    /\ NoDup (aruns new)
    /\ List.length (aruns new) <= 2
    /\ (t = "chat" -> List.length new = 1)
    /\ (mem codellama (available_models a) = true ->
        NoDup (map llm (aruns new))).
Proof.
  intros Hcm Ht.
  destruct (process_query_cases E a q Hinit)
    as [t' [mchat [mcode [Ht' [Hm [Hc [Hne [Hdown Hres]]]]]]]].
  rewrite Hcm in Hres. injection Hres as <- Hmeq.
  rewrite (process_query_unfold E a mchat mcode q t m tr Hc Hcm Ht').
  cbv zeta. destruct Ht as [-> | ->]; unfold chain_for; cbn -[append app].
  - exists [Arun (chat_chain mchat) q].
    destruct (generate E tr mchat _); cbn -[append];
      (split; [reflexivity |]);
      (split; [repeat constructor; cbn; tauto |]);
      (split; [lia |]); (split; [reflexivity |]);
      intros _; repeat constructor; cbn; tauto.
  - destruct (generate E tr mcode _).
    + exists [Arun (code_chain mcode) q; Arun (chat_chain mchat) q].
      cbn -[append]. rewrite <- app_assoc.
      split; [reflexivity |].
      split.
      { constructor; [| repeat constructor; cbn; tauto].
        cbn. intros [H | []]. symmetry in H. now apply chains_differ in H. }
      split; [lia |]. split; [discriminate |].
      intros Hav. rewrite Hav in Hdown. subst mcode. cbn.
      constructor; [| repeat constructor; cbn; tauto].
      cbn. intros [H | []]. apply Hne. rewrite H. reflexivity.
    + exists [Arun (code_chain mcode) q].
      cbn -[append].
      split; [reflexivity |].
      split; [repeat constructor; cbn; tauto |].
      split; [lia |]. split; [discriminate |].
      intros _; repeat constructor; cbn; tauto.
Qed.

End QueryCalls.

Section CommandCalls.
Import Py Main.

Variable E : Env.
Variable self : MultiAgent.
Variables chat code : Ollama.
Hypothesis Hchat : get (models self) "chat" = Some chat.
Hypothesis Hcode : get (models self) "code" = Some code.

(** The code branch invokes the code model once, whatever follows. *)
Lemma code_branch_calls (command : string) (st : state) :
  exists new,
    trace (snd (code_branch E self command st)) = (trace st ++ new)%list
    /\ invokes new = [(code, code_prompt command)].
Proof.
  unfold code_branch, io_bind, lift, getitem, call.
  rewrite Hcode. cbn [ret trace audio_counter].
  destruct (invoke E (trace st) code (code_prompt command)) as [e | resp].
  - eexists. split; reflexivity.
  - destruct (contains "```python" resp);
      [| eexists; split; reflexivity].
    destruct (first_code_block resp) as [block |];
      [| eexists; split; reflexivity].
    cbn [ret trace audio_counter].
    destruct (write_file E _ _ block) as [e | []];
      cbn [snd trace]; rewrite <- ?app_assoc; eexists; split; reflexivity.
Qed.

Lemma process_command_calls (c : ascii) (s : string) (st : state) :
  let command := String c s in
  exists new,
    trace (snd (process_command E self (Some command) st))
    = (trace st ++ new)%list
    /\ if is_code_query command
       then invokes new = [(code, code_prompt command)]
       else invokes new = [(chat, enhanced_prompt command)]
            \/ ((exists e, invoke E (trace st) chat (enhanced_prompt command)
                           = inl e)
                /\ invokes new = [(chat, enhanced_prompt command);
                                  (chat, command)]).
Proof.
  intros command. subst command.
  destruct (is_code_query (String c s)) eqn:Hq.
  - rewrite (process_command_code E self c s st Hq).
    destruct (code_branch_calls (String c s) st) as [new [Htr Hinv]].
    exists new. split; [| exact Hinv].
    unfold try_except.
    destruct (code_branch E self (String c s) st) as [[e | r] st'];
      exact Htr.
  - rewrite (process_command_chat E self c s st Hq).
    unfold try_except, chat_branch, try_except, io_bind, lift, getitem, call.
    rewrite Hchat. cbn [ret trace audio_counter].
    destruct (invoke E (trace st) chat (enhanced_prompt (String c s)))
      as [e | resp].
    + cbn [trace audio_counter].
      exists [Invoke chat (enhanced_prompt (String c s));
              Invoke chat (String c s)].
      split.
      * destruct (invoke E _ chat (String c s)); cbn [snd trace];
          rewrite <- app_assoc; reflexivity.
      * right. split; [now exists e | reflexivity].
    + eexists. split; [reflexivity |]. left. reflexivity.
Qed.

End CommandCalls.

(** The calls of [process_query] for a query classified as chat or code. *)
Lemma process_query_chains
  (E : Multiagent.Env) (a : Multiagent.MultiAgentAssistant) (q t : string)
  (m : Multiagent.Ollama) (tr : list Multiagent.event) :
  Multiagent.MultiAgentAssistant_init E = inr a ->
  Multiagent.choose_model (Multiagent.router a) q = inr (t, m) ->
  t = "chat" \/ t = "code" ->
  exists mchat mcode,
    Multiagent.models a = [("chat", mchat); ("code", mcode)]
    /\ (mcode <> mchat
        <-> Py.mem codellama (Multiagent.available_models a) = true)
    /\ snd (Multiagent.process_query E a q tr)
       = (tr ++ (if (t =? "chat")%string
                 then [Multiagent.Arun (chat_chain mchat) q]
                 else
                   match Multiagent.generate E tr mcode
                           ("You are an expert programmer. " ++ q) with
                   | inr _ => [Multiagent.Arun (code_chain mcode) q]
                   | inl _ => [Multiagent.Arun (code_chain mcode) q;
                               Multiagent.Arun (chat_chain mchat) q]
                   end))%list.
Proof.
  intros Hinit Hcm Ht.
  destruct (process_query_cases E a q Hinit)
    as [t' [mchat [mcode [Ht' [Hm [Hc [Hne [Hdown Hres]]]]]]]].
  rewrite Hcm in Hres. injection Hres as <- Hmeq.
  exists mchat, mcode. split; [exact Hm |]. split.
  - destruct (Py.mem codellama (Multiagent.available_models a)).
    + subst mcode. split; [reflexivity |].
      intros _ H. apply Hne. rewrite <- H. reflexivity.
    + subst mcode. split; [intros H; now contradiction H | discriminate].
  - rewrite (process_query_unfold E a mchat mcode q t m tr Hc Hcm Ht').
    cbv zeta. destruct Ht as [-> | ->]; unfold chain_for; cbn -[append app].
    + destruct (Multiagent.generate E tr mchat _); reflexivity.
    + destruct (Multiagent.generate E tr mcode _);
        cbn -[append app]; rewrite <- ?app_assoc; reflexivity.
Qed.

(** The model invocations of [process_command] for a non-empty command. *)
Lemma process_command_invokes
  (E : Main.Env) (self : Main.MultiAgent) (chat code : Main.Ollama)
  (c : ascii) (s : string) (st : Main.state) :
  Py.get (Main.models self) "chat" = Some chat ->
  Py.get (Main.models self) "code" = Some code ->
  exists new,
    Main.trace (snd (Main.process_command E self (Some (String c s)) st))
    = (Main.trace st ++ new)%list
    /\ invokes new
       = if is_code_query (String c s)
         then [(code, Main.code_prompt (String c s))]
         else
           match Main.invoke E (Main.trace st) chat
                   (Main.enhanced_prompt (String c s)) with
           | inr _ => [(chat, Main.enhanced_prompt (String c s))]
           | inl _ => [(chat, Main.enhanced_prompt (String c s));
                       (chat, String c s)]
           end.
Proof.
  intros Hchat Hcode.
  destruct (is_code_query (String c s)) eqn:Hq.
  - rewrite (process_command_code E self c s st Hq).
    destruct (code_branch_calls E self code Hcode (String c s) st)
      as [new [Htr Hinv]].
    exists new. split; [| exact Hinv].
    unfold try_except.
    destruct (Main.code_branch E self (String c s) st) as [[e | r] st'];
      exact Htr.
  - rewrite (process_command_chat E self c s st Hq).
    unfold try_except, Main.chat_branch, try_except, io_bind, lift, Py.getitem,
      Main.call.
    rewrite Hchat. cbn [Py.ret Main.trace Main.audio_counter].
    destruct (Main.invoke E (Main.trace st) chat
                (Main.enhanced_prompt (String c s))) as [e | resp].
    + cbn [Main.trace Main.audio_counter].
      exists [Main.Invoke chat (Main.enhanced_prompt (String c s));
              Main.Invoke chat (String c s)].
      split; [| reflexivity].
      destruct (Main.invoke E _ chat (String c s)); cbn [snd Main.trace];
        rewrite <- app_assoc; reflexivity.
    + eexists. split; reflexivity.
Qed.

(** C2, as amended.  In [multiagent.py], for a query classified as chat
    the chat chain is invoked once and nothing else; for a query
    classified as code the code chain is invoked and, exactly when it
    fails, the chat chain once after it, never the code chain again; the
    two chains are different chains, and they run on different models
    exactly when the dedicated code model is served.  In [main.py], a code
    query invokes the code model exactly once, and any other command
    invokes the chat model with the enhanced prompt and, exactly when that
    invocation fails, the same chat model once more with the bare
    command. *)
Theorem fallback_invocations
  (E : Multiagent.Env) (a : Multiagent.MultiAgentAssistant) (q t : string)
  (m : Multiagent.Ollama) (tr : list Multiagent.event)
  (E' : Main.Env) (self : Main.MultiAgent) (chat code : Main.Ollama)
  (c : ascii) (s : string) (st : Main.state) :
  Multiagent.MultiAgentAssistant_init E = inr a ->
  Multiagent.choose_model (Multiagent.router a) q = inr (t, m) ->
  t = "chat" \/ t = "code" ->
  Py.get (Main.models self) "chat" = Some chat ->
  Py.get (Main.models self) "code" = Some code ->
  (exists mchat mcode,
     Multiagent.models a = [("chat", mchat); ("code", mcode)]
     /\ code_chain mcode <> chat_chain mchat
     /\ (mcode <> mchat
         <-> Py.mem codellama (Multiagent.available_models a) = true)
     /\ snd (Multiagent.process_query E a q tr)
        = (tr ++ (if (t =? "chat")%string
                  then [Multiagent.Arun (chat_chain mchat) q]
                  else
                    match Multiagent.generate E tr mcode
                            ("You are an expert programmer. " ++ q) with
                    | inr _ => [Multiagent.Arun (code_chain mcode) q]
                    | inl _ => [Multiagent.Arun (code_chain mcode) q;
                                Multiagent.Arun (chat_chain mchat) q]
                    end))%list)
  /\ (exists new,
        Main.trace (snd (Main.process_command E' self (Some (String c s)) st))
        = (Main.trace st ++ new)%list
        /\ invokes new
           = if is_code_query (String c s)
             then [(code, Main.code_prompt (String c s))]
             else
               match Main.invoke E' (Main.trace st) chat
                       (Main.enhanced_prompt (String c s)) with
               | inr _ => [(chat, Main.enhanced_prompt (String c s))]
               | inl _ => [(chat, Main.enhanced_prompt (String c s));
                           (chat, String c s)]
               end).
Proof.
  intros Hinit Hcm Ht Hchat Hcode. split.
  - destruct (process_query_chains E a q t m tr Hinit Hcm Ht)
      as [mchat [mcode [Hm [Hiff Hcalls]]]].
    exists mchat, mcode. split; [exact Hm |].
    split; [apply chains_differ |]. split; [exact Hiff | exact Hcalls].
  - exact (process_command_invokes E' self chat code c s st Hchat Hcode).
Qed.

Lemma fallback_invocations_witness :
  (exists mchat mcode,
     Multiagent.models (started env_all_down)
     = [("chat", mchat); ("code", mcode)]
     /\ code_chain mcode <> chat_chain mchat
     /\ (mcode <> mchat
         <-> Py.mem codellama
               (Multiagent.available_models (started env_all_down)) = true)
     /\ snd (Multiagent.process_query env_all_down (started env_all_down)
               "fix the bug" [])
        = [Multiagent.Arun (code_chain mcode) "fix the bug";
           Multiagent.Arun (chat_chain mchat) "fix the bug"])
  /\ (exists new,
        Main.trace (snd (Main.process_command env_models_down
                           (agent_of env_models_down) (Some "hello") fresh))
        = new
        /\ invokes new
           = [({| Main.model := "neural-chat:7b-v3.3-q4_K_M";
                  Main.base_url := "http://localhost:11434";
                  Main.timeout := 60 |}, Main.enhanced_prompt "hello");
              ({| Main.model := "neural-chat:7b-v3.3-q4_K_M";
                  Main.base_url := "http://localhost:11434";
                  Main.timeout := 60 |}, "hello")]).
Proof.
  apply (fallback_invocations env_all_down (started env_all_down)
           "fix the bug" "code" {| Multiagent.model := codellama |} []
           env_models_down (agent_of env_models_down)
           {| Main.model := "neural-chat:7b-v3.3-q4_K_M";
              Main.base_url := "http://localhost:11434";
              Main.timeout := 60 |}
           {| Main.model := "codellama:7b-instruct-q4_K_M";
              Main.base_url := "http://localhost:11434";
              Main.timeout := 60 |}
           "h" "ello" fresh).
  - reflexivity.
  - reflexivity.
  - right. reflexivity.
  - reflexivity.
  - reflexivity.
Defined.

(** C2, as the specification states it, fails.  In [main.py] a command
    that is not a code query invokes the chat model a second time after
    its failure; in [multiagent.py], when only a general model is served,
    the fallback of a code query reaches the model that has just failed. *)
Lemma failed_model_invoked_again :
  map fst (invokes (Main.trace (snd (Main.process_command env_models_down
                                       (agent_of env_models_down)
                                       (Some "hello") fresh))))
  = [{| Main.model := "neural-chat:7b-v3.3-q4_K_M";
        Main.base_url := "http://localhost:11434";
        Main.timeout := 60 |};
     {| Main.model := "neural-chat:7b-v3.3-q4_K_M";
        Main.base_url := "http://localhost:11434";
        Main.timeout := 60 |}]
  /\ ~ NoDup (map fst (invokes (Main.trace
                (snd (Main.process_command env_models_down
                        (agent_of env_models_down) (Some "hello") fresh)))))
  /\ ~ NoDup (map Multiagent.llm (aruns
                (snd (Multiagent.process_query env_general_down
                        (started env_general_down) "fix the bug" [])))).
Proof.
  split; [vm_compute; reflexivity |]. split.
  - vm_compute. intros H. inversion H as [| x l Hnin _]; subst.
    apply Hnin. left. reflexivity.
  - vm_compute. intros H. inversion H as [| x l Hnin _]; subst.
    apply Hnin. left. reflexivity.
Qed.

(** A query classified as creative starts with the chat chain; when that
      chain fails the handler reaches the chat chain again. *)
Example creative_query_reaches_chat_chain_twice :
    Multiagent.choose_model (Multiagent.router (started env_all_down))
      "write a poem" = inr ("creative", mistral)
    /\ Multiagent.process_query env_all_down (started env_all_down)
         "write a poem" []
       = (inl down,
          [Multiagent.Arun (chat_chain mistral) "write a poem";
           Multiagent.Arun (chat_chain mistral) "write a poem"]).
Proof. split; reflexivity. Qed.

(** ** The command loops *)

Lemma exit_phrase_truthy (cmd : string) :
  Py.contains "exit" (Py.lower cmd) || Py.contains "quit" (Py.lower cmd) = true ->
  exists c s, cmd = String c s.
Proof.
  intros H. destruct cmd as [| c s]; [discriminate |]. now exists c, s.
Qed.

(** C10, as amended.  In [main.py] a captured command whose lowercased
    text holds "exit" or "quit" anywhere ends the loop: the farewell is
    spoken, no model is invoked after the capture, the body breaks, and
    the loop returns with any fuel.  In [multiagent.py] only "exit" does
    so: for a captured command with "exit" the farewell is requested,
    nothing is posted, and the loop ends, by the break or by the exception
    of the speech engine; a captured command without "exit" (one with
    "quit", for instance) is posted to the model server and never breaks
    the loop: the iteration continues when the request and the speech
    succeed, and otherwise leaves with their exception. *)
Theorem exit_phrase_ends_session
  (E : Main.Env) (self : Main.MultiAgent) (st st1 : Main.state) (cmd : string)
  (E' : Multiagent.Env) (tr tr1 : list Multiagent.event)
  (c' : ascii) (s' : string) :
  Main.listen E st = (inr (Some cmd), st1) ->
  Py.contains "exit" (Py.lower cmd) || Py.contains "quit" (Py.lower cmd) = true ->
  Multiagent.listen E' tr = (inr (Some (String c' s')), tr1) ->
  (Main.run_body E self st = (inr Break, snd (Main.speak E self "Goodbye!" st1))
   /\ invokes (Main.trace (snd (Main.run_body E self st)))
      = invokes (Main.trace st1)
   /\ forall fuel,
        fst (while_true (S fuel) (Main.run_body E self) st) = inr (Some tt))
  /\ (if Py.contains "exit" (Py.lower (String c' s'))
      then
        Multiagent.run_body E' tr
        = (match Multiagent.say E' tr1 "Goodbye!" with
           | inr _ => inr Break
           | inl e => inl e
           end,
           (tr1 ++ [Multiagent.Say "Goodbye!"])%list)
        /\ forall fuel,
             while_true (S fuel) (Multiagent.run_body E') tr
             = (match Multiagent.say E' tr1 "Goodbye!" with
                | inr _ => inr (Some tt)
                | inl e => inl e
                end,
                (tr1 ++ [Multiagent.Say "Goodbye!"])%list)
      else
        Multiagent.run_body E' tr
        = match Multiagent.post_generate E' tr1 (String c' s') with
          | inl e =>
              (inl e,
               (tr1 ++ [Multiagent.Post Multiagent.ollama_url "codellama"
                          (String c' s')])%list)
          | inr (status, body) =>
              (match Multiagent.say E'
                       (tr1 ++ [Multiagent.Post Multiagent.ollama_url
                                  "codellama" (String c' s')])
                       (if status =? 200 then body
                        else "Sorry, I couldn't process that command.") with
               | inr _ => inr Continue
               | inl e => inl e
               end,
               (tr1 ++ [Multiagent.Post Multiagent.ollama_url "codellama"
                          (String c' s');
                        Multiagent.Say
                          (if status =? 200 then body
                           else "Sorry, I couldn't process that command.")])%list)
          end).
Proof.
  intros Hl Hex Hl'.
  assert (Hbody : Main.run_body E self st
                  = (inr Break, snd (Main.speak E self "Goodbye!" st1))).
  { destruct (exit_phrase_truthy cmd Hex) as [c [s ->]].
    unfold Main.run_body. unfold io_bind at 1. rewrite Hl.
    cbn [Main.truthy Main.text_of]. rewrite Hex.
    unfold io_bind.
    destruct (speak_returns E self "Goodbye!" st1) as [n [new [Heq _]]].
    rewrite Heq. reflexivity. }
  split; [split; [exact Hbody | split] |].
  - rewrite Hbody.
    destruct (speak_returns E self "Goodbye!" st1) as [n [new [Heq Hall]]].
    rewrite Heq. cbn [snd Main.trace]. rewrite invokes_app.
    rewrite (speak_events_no_invoke _ _ Hall). apply app_nil_r.
  - intros fuel. cbn [while_true]. unfold io_bind. rewrite Hbody. reflexivity.
  - destruct (Py.contains "exit" (Py.lower (String c' s'))) eqn:Hex'.
    + assert (Hbody' :
        Multiagent.run_body E' tr
        = (match Multiagent.say E' tr1 "Goodbye!" with
           | inr _ => inr Break
           | inl e => inl e
           end,
           (tr1 ++ [Multiagent.Say "Goodbye!"])%list)).
      { unfold Multiagent.run_body. unfold io_bind at 1. rewrite Hl'.
        cbn [Multiagent.truthy]. rewrite Hex'.
        unfold io_bind, Multiagent.speak, Multiagent.call, io_ret.
        destruct (Multiagent.say E' tr1 "Goodbye!"); reflexivity. }
      split; [exact Hbody' |].
      intros fuel. cbn [while_true]. unfold io_bind. rewrite Hbody'.
      destruct (Multiagent.say E' tr1 "Goodbye!"); reflexivity.
    + unfold Multiagent.run_body. unfold io_bind at 1. rewrite Hl'.
      cbn [Multiagent.truthy]. rewrite Hex'.
      unfold Multiagent.process_command, Multiagent.speak, io_bind,
        Multiagent.call, io_ret.
      destruct (Multiagent.post_generate E' tr1 (String c' s'))
        as [e | [status body]]; [reflexivity |].
      cbn [fst snd].
      destruct (status =? 200);
        match goal with
        | |- context [Multiagent.say E' ?t ?r] =>
            destruct (Multiagent.say E' t r)
        end; rewrite <- ?app_assoc; reflexivity.
Qed.

Lemma exit_phrase_ends_session_witness :
  (Main.run_body (env_hears_main "quite interesting")
     (agent_of (env_hears_main "quite interesting")) fresh
   = (inr Break,
      snd (Main.speak (env_hears_main "quite interesting")
             (agent_of (env_hears_main "quite interesting")) "Goodbye!"
             {| Main.audio_counter := 0;
                Main.trace := [Main.Microphone; Main.Listen 10 10;
                               Main.RecognizeGoogle None] |}))
   /\ invokes (Main.trace (snd (Main.run_body (env_hears_main "quite interesting")
                                  (agent_of (env_hears_main "quite interesting"))
                                  fresh)))
      = invokes [Main.Microphone; Main.Listen 10 10; Main.RecognizeGoogle None]
   /\ forall fuel,
        fst (while_true (S fuel)
               (Main.run_body (env_hears_main "quite interesting")
                  (agent_of (env_hears_main "quite interesting"))) fresh)
        = inr (Some tt))
  /\ (Multiagent.run_body (env_hears "Exit now") []
      = (inr Break,
         [Multiagent.MicListen; Multiagent.RecognizeGoogle;
          Multiagent.Say "Goodbye!"])
      /\ forall fuel,
           while_true (S fuel) (Multiagent.run_body (env_hears "Exit now")) []
           = (inr (Some tt),
              [Multiagent.MicListen; Multiagent.RecognizeGoogle;
               Multiagent.Say "Goodbye!"])).
Proof.
  apply (exit_phrase_ends_session (env_hears_main "quite interesting")
           (agent_of (env_hears_main "quite interesting")) fresh
           {| Main.audio_counter := 0;
              Main.trace := [Main.Microphone; Main.Listen 10 10;
                             Main.RecognizeGoogle None] |}
           "quite interesting"
           (env_hears "Exit now") []
           [Multiagent.MicListen; Multiagent.RecognizeGoogle] "E" "xit now");
    reflexivity.
Defined.

(** C10, as stated, fails for the loop of [multiagent.py]: a command
    "quit" is posted to the model and the loop goes on. *)
Lemma quit_is_dispatched_by_plain_loop :
  Multiagent.run_body (env_hears "quit") []
  = (inr Continue,
     [Multiagent.MicListen; Multiagent.RecognizeGoogle;
      Multiagent.Post Multiagent.ollama_url "codellama" "quit";
      Multiagent.Say "ok"])
  /\ ~ exit_or_quit_ends_loop (env_hears "quit") [].
Proof.
  split; [reflexivity |].
  intros H.
  specialize (H "quit" [Multiagent.MicListen; Multiagent.RecognizeGoogle]
                eq_refl eq_refl).
  vm_compute in H. discriminate.
Qed.

(** ** More on the router *)

Lemma match_alt_some (alts : list string) (s w : string) :
  Py.match_alt alts s = Some w -> In w alts /\ Py.startswith w s = true.
Proof.
  induction alts as [| a alts IH]; cbn; [discriminate |].
  destruct (Py.startswith a s) eqn:Ha.
  - intros H. injection H as <-. split; [now left | exact Ha].
  - intros H. destruct (IH H) as [Hin Hs]. split; [now right | exact Hs].
Qed.

Lemma match_alt_none (alts : list string) (s w : string) :
  Py.match_alt alts s = None -> In w alts -> Py.startswith w s = false.
Proof.
  induction alts as [| a alts IH]; cbn; [contradiction |].
  destruct (Py.startswith a s) eqn:Ha; [discriminate |].
  intros H [<- | Hin]; [exact Ha | now apply IH].
Qed.

Lemma startswith_contains (w s : string) :
  Py.startswith w s = true -> Py.contains w s = true.
Proof. intros H. destruct s; cbn; rewrite H; reflexivity. Qed.

Lemma contains_tail (w : string) (c : ascii) (s : string) :
  Py.contains w s = true -> Py.contains w (String c s) = true.
Proof. intros H. cbn. rewrite H. apply orb_true_r. Qed.

(** A match reported by the scan is an alternative that occurs in the text. *)
Lemma findall_from_sound (alts : list string) (s : string) :
  forall skip w,
    In w (Py.findall_from alts skip s) -> In w alts /\ Py.contains w s = true.
Proof.
  induction s as [| c s IH]; intros skip w; cbn [Py.findall_from].
  - destruct skip; [| contradiction].
    destruct (Py.match_alt alts "") as [w' |] eqn:Hm; [| contradiction].
    intros [<- | []]. destruct (match_alt_some _ _ _ Hm) as [Hin Hs].
    split; [exact Hin | now apply startswith_contains].
  - destruct skip as [| k].
    + destruct (Py.match_alt alts (String c s)) as [w' |] eqn:Hm.
      * intros [<- | Hin].
        -- destruct (match_alt_some _ _ _ Hm) as [Hin Hs].
           split; [exact Hin | now apply startswith_contains].
        -- destruct (IH _ _ Hin) as [Ha Hc].
           split; [exact Ha | now apply contains_tail].
      * intros Hin. destruct (IH _ _ Hin) as [Ha Hc].
        split; [exact Ha | now apply contains_tail].
    + intros Hin. destruct (IH _ _ Hin) as [Ha Hc].
      split; [exact Ha | now apply contains_tail].
Qed.

(** An alternative that occurs in the text makes the scan report a match. *)
Lemma findall_complete (alts : list string) (s w : string) :
  In w alts -> Py.contains w s = true -> Py.findall alts s <> [].
Proof.
  unfold Py.findall. intros Hin.
  induction s as [| c s IH]; cbn [Py.findall_from Py.contains].
  - rewrite orb_false_r. intros Hs.
    destruct (Py.match_alt alts "") as [w' |] eqn:Hm; [discriminate |].
    rewrite (match_alt_none _ _ _ Hm Hin) in Hs. discriminate.
  - intros Hc.
    destruct (Py.match_alt alts (String c s)) as [w' |] eqn:Hm; [discriminate |].
    rewrite (match_alt_none _ _ _ Hm Hin) in Hc. cbn in Hc.
    now apply IH.
Qed.

(** X2: a category counts at least one match exactly when one of its
    keywords occurs somewhere in the lowercased query, also inside a
    longer word. *)
Theorem score_positive_iff_keyword_occurs (k q : string) (ws : list string) :
  Py.get (Multiagent.task_patterns (Multiagent.ModelRouter_init [])) k = Some ws ->
  (0 < score k q
   <-> exists w, In w ws /\ Py.contains w (Py.lower q) = true).
Proof.
  intros Hk. unfold score, Multiagent.count_matches, Py.getitem.
  rewrite Hk. cbn [Py.bind Py.ret].
  split.
  - intros Hpos.
    destruct (Py.findall ws (Py.lower q)) as [| w l] eqn:Hf; [cbn in Hpos; lia |].
    exists w. apply (findall_from_sound ws (Py.lower q) 0 w).
    unfold Py.findall in Hf. rewrite Hf. now left.
  - intros [w [Hin Hc]].
    pose proof (findall_complete ws (Py.lower q) w Hin Hc) as Hne.
    destruct (Py.findall ws (Py.lower q)); [contradiction | cbn; lia].
Qed.

Lemma score_positive_iff_keyword_occurs_witness :
  0 < score "analysis" "Please EVALUATE this"
  <-> exists w,
        In w ["analyze"; "examine"; "investigate"; "research"; "study";
              "evaluate"]
        /\ Py.contains w (Py.lower "Please EVALUATE this") = true.
Proof.
  apply (score_positive_iff_keyword_occurs "analysis" "Please EVALUATE this").
  reflexivity.
Defined.

(** X1: a category whose count is strictly higher than the count of every
    other category is the one [choose_model] returns, with the model of
    its role (the code model for code, the chat model otherwise). *)
Theorem strict_winner_is_chosen
  (models : Py.dict Multiagent.Ollama) (mchat mcode : Multiagent.Ollama)
  (q k : string) :
  Py.get models "chat" = Some mchat ->
  Py.get models "code" = Some mcode ->
  In k categories ->
  (forall k', In k' categories -> k' <> k -> score k' q < score k q) ->
  Multiagent.choose_model (Multiagent.ModelRouter_init models) q
  = inr (k, if (k =? "code")%string then mcode else mchat).
Proof.
  intros Hchat Hcode Hk Hstrict.
  assert (Hpos : exists k0, In k0 categories /\ 0 < score k0 q).
  { exists k. split; [exact Hk |].
    destruct (String.eqb_spec k "code") as [-> | Hne].
    - specialize (Hstrict "chat" ltac:(simpl; auto) ltac:(discriminate)). lia.
    - specialize (Hstrict "code" ltac:(simpl; auto) ltac:(congruence)). lia. }
  rewrite (choose_model_nonzero models mchat mcode Hchat Hcode q Hpos).
  assert (Heq : first_top q = k).
  { destruct (String.eqb_spec (first_top q) k) as [H | Hne]; [exact H |].
    pose proof (first_top_is_top q k Hk) as Hle.
    specialize (Hstrict (first_top q) (first_top_in q) Hne). lia. }
  rewrite Heq. reflexivity.
Qed.

Lemma strict_winner_is_chosen_witness :
  Multiagent.choose_model (Multiagent.ModelRouter_init models0)
    "Write a story, then compose a poem about a bug"
  = inr ("creative", mistral).
Proof.
  apply (strict_winner_is_chosen models0 mistral
           {| Multiagent.model := codellama |}
           "Write a story, then compose a poem about a bug" "creative").
  - reflexivity.
  - reflexivity.
  - simpl. auto.
  - intros k' Hk' Hne. simpl in Hk'.
    destruct Hk' as [<- | [<- | [<- | [<- | []]]]];
      try (exfalso; apply Hne; reflexivity); vm_compute; lia.
Defined.

Lemma choose_model_any (models : Py.dict Multiagent.Ollama) (q : string) :
  exists t,
    In t categories
    /\ Multiagent.choose_model (Multiagent.ModelRouter_init models) q
       = Py.bind (Py.getitem models (primary_role t)) (fun m => Py.ret (t, m)).
Proof.
  unfold Multiagent.choose_model. rewrite scores_of_init.
  cbn [Py.bind Py.values map snd Py.max Py.ret fold_left].
  unfold Py.items. rewrite max_key_first_top. cbn [Py.bind fst].
  fold (first_top q).
  destruct (_ =? 0).
  - exists "chat". split; [simpl; auto | reflexivity].
  - exists (first_top q). split; [apply first_top_in |].
    destruct (first_top_cases (score "code" q) (score "chat" q)
                (score "creative" q) (score "analysis" q)) as [H | [H | [H | H]]];
      fold (first_top q) in H; rewrite H; reflexivity.
Qed.

(** X4: for every model dict and query, [choose_model] settles on one of
    the four categories and returns it with the model stored under the key
    of its role; when that key is missing it raises [KeyError] with that
    key, and it raises nothing else. *)
Theorem missing_role_raises_key_error
  (models : Py.dict Multiagent.Ollama) (q : string) :
  exists t,
    In t categories
    /\ Multiagent.choose_model (Multiagent.ModelRouter_init models) q
       = match Py.get models (primary_role t) with
         | Some m => inr (t, m)
         | None => inl (Py.KeyError (primary_role t))
         end.
Proof.
  destruct (choose_model_any models q) as [t [Ht Heq]].
  exists t. split; [exact Ht |]. rewrite Heq. unfold Py.getitem.
  destruct (Py.get models (primary_role t)); reflexivity.
Qed.

Lemma lower_char_idempotent (c : ascii) :
  Py.lower_char (Py.lower_char c) = Py.lower_char c.
Proof.
  destruct c as [[] [] [] [] [] [] [] []]; vm_compute; reflexivity.
Qed.

Lemma lower_idempotent (s : string) : Py.lower (Py.lower s) = Py.lower s.
Proof.
  induction s as [| c s IH]; [reflexivity |].
  cbn [Py.lower]. rewrite lower_char_idempotent, IH. reflexivity.
Qed.

(** X3: [choose_model] depends on the query only through its lowercased
    text: two queries that differ in letter case get the same answer, and
    lowercasing a query beforehand changes nothing. *)
Theorem classification_ignores_case
  (self : Multiagent.ModelRouter) (q1 q2 : string) :
  Py.lower q1 = Py.lower q2 ->
  Multiagent.choose_model self q1 = Multiagent.choose_model self q2
  /\ Multiagent.choose_model self (Py.lower q1) = Multiagent.choose_model self q1.
Proof.
  intros H. unfold Multiagent.choose_model.
  rewrite lower_idempotent, H. split; reflexivity.
Qed.

Lemma classification_ignores_case_witness :
  Multiagent.choose_model (Multiagent.ModelRouter_init models0) "DEBUG My Script"
  = Multiagent.choose_model (Multiagent.ModelRouter_init models0) "debug my script"
  /\ Multiagent.choose_model (Multiagent.ModelRouter_init models0)
       (Py.lower "DEBUG My Script")
     = Multiagent.choose_model (Multiagent.ModelRouter_init models0)
         "DEBUG My Script".
Proof.
  apply (classification_ignores_case (Multiagent.ModelRouter_init models0)
           "DEBUG My Script" "debug my script").
  reflexivity.
Defined.

(** ** More on the assistant of multiagent.py *)

Section Init.
Import Py Multiagent.

Variable E : Env.

Lemma init_cases :
  let avail := _check_available_models E in
  match find (fun n => mem n avail) chat_candidates with
  | None => MultiAgentAssistant_init E = inl no_chat_model
  | Some n =>
      exists a,
        MultiAgentAssistant_init E = inr a
        /\ available_models a = avail
        /\ models a
           = [("chat", {| model := n |});
              ("code", {| model := if mem codellama avail then codellama
                                   else n |})]
        /\ router_models (router a) = models a
        /\ map (fun kc => (fst kc, llm (snd kc))) (chains a) = models a
  end.
Proof.
  intros avail. unfold MultiAgentAssistant_init, chat_candidates.
  fold avail. cbn [find].
  destruct (mem "mistral:7b-instruct-q4_K_M" avail);
    [| destruct (mem "neural-chat:7b-v3.3-q4_K_M" avail);
       [| destruct (mem "llama2:7b-chat-q4_K_M" avail);
          [| reflexivity]]];
    (unfold codellama;
     destruct (mem "codellama:7b-instruct-q4_K_M" avail);
     cbn; eexists; repeat split).
Qed.

End Init.

(** X5: [__init__] raises its [RuntimeError] exactly when none of the
    three chat models is in the list the server reports, and it raises no
    other exception. *)
Theorem init_fails_iff_no_chat_model (E : Multiagent.Env) :
  ((forall n, In n chat_candidates ->
              Py.mem n (Multiagent._check_available_models E) = false)
   <-> Multiagent.MultiAgentAssistant_init E = inl no_chat_model)
  /\ forall e, Multiagent.MultiAgentAssistant_init E = inl e -> e = no_chat_model.
Proof.
  pose proof (init_cases E) as H. cbv zeta in H.
  destruct (find _ chat_candidates) as [n |] eqn:Hf.
  - destruct H as [a [Hinit _]]. rewrite Hinit.
    apply find_some in Hf. destruct Hf as [Hin Hmem].
    split; [split |]; try discriminate.
    intros Hnone. rewrite (Hnone n Hin) in Hmem. discriminate.
  - rewrite H. split; [split; [reflexivity |] |].
    + intros _ n Hin. exact (find_none _ _ Hf n Hin).
    + intros e He. now injection He as <-.
Qed.

(** X6: when the tags request raises or answers with a status other than
    200, the list of available models is empty and [__init__] raises its
    [RuntimeError]. *)
Theorem unreachable_server_fails_init (E : Multiagent.Env) :
  (forall names, Multiagent.api_tags E <> inr (200, names)) ->
  Multiagent._check_available_models E = []
  /\ Multiagent.MultiAgentAssistant_init E = inl no_chat_model.
Proof.
  intros Hbad.
  assert (Hnil : Multiagent._check_available_models E = []).
  { unfold Multiagent._check_available_models.
    destruct (Multiagent.api_tags E) as [e | [status names]] eqn:Ht;
      [reflexivity |].
    destruct (Nat.eq_dec status 200) as [-> | Hne].
    - exfalso. now apply (Hbad names).
    - do 201 (destruct status as [| status]; [try reflexivity; congruence |]).
      reflexivity. }
  split; [exact Hnil |].
  pose proof (init_cases E) as H. cbv zeta in H.
  rewrite Hnil in H. exact H.
Qed.

Lemma unreachable_server_fails_init_witness :
  Multiagent._check_available_models
    (env_tags (inr (503, ["mistral:7b-instruct-q4_K_M"]))) = []
  /\ Multiagent.MultiAgentAssistant_init
       (env_tags (inr (503, ["mistral:7b-instruct-q4_K_M"])))
     = inl no_chat_model.
Proof.
  apply (unreachable_server_fails_init
           (env_tags (inr (503, ["mistral:7b-instruct-q4_K_M"])))).
  intros names H. discriminate.
Defined.

(** X7: an assistant that [__init__] returns has as chat model the first
    of mistral, neural-chat and llama2 that the server reports, as code
    model codellama when reported and the chat model otherwise; its router
    holds the same model dict, and each chain runs on the model stored
    under its own key. *)
Theorem init_prefers_models_in_order
  (E : Multiagent.Env) (a : Multiagent.MultiAgentAssistant) :
  Multiagent.MultiAgentAssistant_init E = inr a ->
  exists n,
    find (fun n => Py.mem n (Multiagent.available_models a)) chat_candidates
    = Some n
    /\ Multiagent.available_models a = Multiagent._check_available_models E
    /\ Multiagent.models a
       = [("chat", {| Multiagent.model := n |});
          ("code", {| Multiagent.model :=
                        if Py.mem codellama (Multiagent.available_models a)
                        then codellama else n |})]
    /\ Multiagent.router_models (Multiagent.router a) = Multiagent.models a
    /\ map (fun kc => (fst kc, Multiagent.llm (snd kc))) (Multiagent.chains a)
       = Multiagent.models a.
Proof.
  intros Hinit. pose proof (init_cases E) as H. cbv zeta in H.
  destruct (find _ chat_candidates) as [n |] eqn:Hf.
  - destruct H as [a' [Hinit' [Hav [Hm [Hr Hc]]]]].
    rewrite Hinit in Hinit'. injection Hinit' as <-.
    exists n. rewrite Hav. repeat split; assumption.
  - rewrite H in Hinit. discriminate.
Qed.

Lemma init_prefers_models_in_order_witness :
  exists n,
    find (fun n => Py.mem n (Multiagent.available_models
                               (started env_general_only)))
         chat_candidates = Some n
    /\ Multiagent.available_models (started env_general_only)
       = Multiagent._check_available_models env_general_only
    /\ Multiagent.models (started env_general_only)
       = [("chat", {| Multiagent.model := n |});
          ("code", {| Multiagent.model :=
                        if Py.mem codellama
                             (Multiagent.available_models
                                (started env_general_only))
                        then codellama else n |})]
    /\ Multiagent.router_models (Multiagent.router (started env_general_only))
       = Multiagent.models (started env_general_only)
    /\ map (fun kc => (fst kc, Multiagent.llm (snd kc)))
           (Multiagent.chains (started env_general_only))
       = Multiagent.models (started env_general_only).
Proof.
  apply (init_prefers_models_in_order env_general_only
           (started env_general_only)).
  reflexivity.
Defined.

Lemma chain_for_eq (mchat mcode : Multiagent.Ollama) (t : string) :
  chain_for mchat mcode t
  = {| Multiagent.llm := if (t =? "code")%string then mcode else mchat;
       Multiagent.template := template_for t |}.
Proof.
  unfold chain_for, template_for, code_chain, chat_chain.
  destruct (t =? "code")%string; reflexivity.
Qed.

(** X8: when the model the router returns answers the first prompt,
    [process_query] returns that answer after this single invocation; the
    prompt is the template of the task type followed by the query as
    given. *)
Theorem first_answer_is_returned
  (E : Multiagent.Env) (a : Multiagent.MultiAgentAssistant) (q t : string)
  (m : Multiagent.Ollama) (tr : list Multiagent.event) (resp : string) :
  Multiagent.MultiAgentAssistant_init E = inr a ->
  Multiagent.choose_model (Multiagent.router a) q = inr (t, m) ->
  Multiagent.generate E tr m (template_for t ++ q) = inr resp ->
  Multiagent.process_query E a q tr
  = (inr resp,
     (tr ++ [Multiagent.Arun {| Multiagent.llm := m;
                                Multiagent.template := template_for t |} q])%list).
Proof.
  intros Hinit Hcm Hgen.
  destruct (process_query_cases E a q Hinit)
    as [t' [mchat [mcode [Ht [_ [Hc [_ [_ Hres]]]]]]]].
  rewrite Hcm in Hres. injection Hres as <- ->.
  rewrite (process_query_unfold E a mchat mcode q t _ tr Hc Hcm Ht).
  cbv zeta. rewrite chain_for_eq. cbn [Multiagent.llm Multiagent.template].
  rewrite Hgen. reflexivity.
Qed.

Lemma first_answer_is_returned_witness :
  Multiagent.process_query env_general_only (started env_general_only)
    "Tell me a Story" []
  = (inr "def f(): pass",
     [Multiagent.Arun {| Multiagent.llm := llama2;
                         Multiagent.template := template_for "creative" |}
        "Tell me a Story"]).
Proof.
  apply (first_answer_is_returned env_general_only (started env_general_only)
           "Tell me a Story" "creative" llama2 [] "def f(): pass");
    reflexivity.
Defined.

(** X9: when the first invocation fails, [process_query] re-raises that
    exception for a query classified as chat, and for any other task type
    invokes the chat chain once and ends as that invocation ends (its
    answer or its exception; the first exception is dropped). *)
Theorem failure_falls_back_to_chat_chain
  (E : Multiagent.Env) (a : Multiagent.MultiAgentAssistant) (q t : string)
  (m : Multiagent.Ollama) (tr : list Multiagent.event) (e : Py.exn) :
  Multiagent.MultiAgentAssistant_init E = inr a ->
  Multiagent.choose_model (Multiagent.router a) q = inr (t, m) ->
  Multiagent.generate E tr m (template_for t ++ q) = inl e ->
  let first := {| Multiagent.llm := m; Multiagent.template := template_for t |} in
  exists mchat,
    Py.get (Multiagent.models a) "chat" = Some mchat
    /\ Multiagent.process_query E a q tr
       = if (t =? "chat")%string
         then (inl e, (tr ++ [Multiagent.Arun first q])%list)
         else (Multiagent.generate E (tr ++ [Multiagent.Arun first q]) mchat
                 (template_for "chat" ++ q),
               (tr ++ [Multiagent.Arun first q;
                       Multiagent.Arun (chat_chain mchat) q])%list).
Proof.
  intros Hinit Hcm Hgen first.
  destruct (process_query_cases E a q Hinit)
    as [t' [mchat [mcode [Ht [Hm [Hc [_ [_ Hres]]]]]]]].
  rewrite Hcm in Hres. injection Hres as <- ->.
  exists mchat. split; [rewrite Hm; reflexivity |].
  rewrite (process_query_unfold E a mchat mcode q t _ tr Hc Hcm Ht).
  cbv zeta. rewrite chain_for_eq. cbn [Multiagent.llm Multiagent.template].
  fold first. rewrite Hgen.
  destruct (t =? "chat")%string; [reflexivity |].
  rewrite <- app_assoc. reflexivity.
Qed.

Lemma failure_falls_back_to_chat_chain_witness :
  let first := {| Multiagent.llm := {| Multiagent.model := codellama |};
                  Multiagent.template := template_for "code" |} in
  exists mchat,
    Py.get (Multiagent.models (started env_code_down)) "chat" = Some mchat
    /\ Multiagent.process_query env_code_down (started env_code_down)
         "fix this bug" []
       = if ("code" =? "chat")%string
         then (inl down, [Multiagent.Arun first "fix this bug"])
         else (Multiagent.generate env_code_down
                 [Multiagent.Arun first "fix this bug"] mchat
                 (template_for "chat" ++ "fix this bug"),
               [Multiagent.Arun first "fix this bug";
                Multiagent.Arun (chat_chain mchat) "fix this bug"]).
Proof.
  apply (failure_falls_back_to_chat_chain env_code_down (started env_code_down)
           "fix this bug" "code" {| Multiagent.model := codellama |} [] down);
    reflexivity.
Defined.

(** ** More on speech capture *)

Lemma count_calls_app (p : Main.event -> bool) (l1 l2 : list Main.event) :
  count_calls p (l1 ++ l2) = count_calls p l1 + count_calls p l2.
Proof. unfold count_calls. now rewrite filter_app, length_app. Qed.

Section ListenBounds.
Import Py Main.

Variable E : Env.

(** One attempt makes a non-empty initial part of the calls of a full
    attempt, and leaves the counter of audio files alone. *)
Lemma listen_once_calls (st : state) :
  exists r k,
    1 <= k <= 5
    /\ listen_once E st
       = (r, {| audio_counter := audio_counter st;
                trace := (trace st ++ firstn k full_attempt)%list |}).
Proof.
  unfold listen_once, io_bind, try_except, call.
  cbn [trace audio_counter].
  destruct (microphone E (trace st)) as [e | []];
    [eexists; exists 1; split; [lia | reflexivity] |].
  destruct (capture E _) as [e | []];
    [eexists; exists 2; split; [lia |]; rewrite <- app_assoc; reflexivity |].
  destruct (recognize_google E _ None) as [e | text];
    [| eexists; exists 3; split; [lia |]; rewrite <- !app_assoc; reflexivity].
  cbn [recognize_languages]. unfold io_bind, try_except, call, io_ret, io_raise.
  cbn [trace audio_counter].
  destruct (recognize_google E _ (Some "en-US")) as [e1 | text];
    [| eexists; exists 4; split; [lia |]; rewrite <- !app_assoc; reflexivity].
  cbn [trace audio_counter].
  destruct (recognize_google E _ (Some "fa-IR")) as [e2 | text];
    eexists; exists 5; (split; [lia |]); rewrite <- !app_assoc; reflexivity.
Qed.

Lemma attempt_prefix_counts (k : nat) :
  1 <= k <= 5 ->
  count_calls is_microphone (firstn k full_attempt) = 1
  /\ count_calls is_recognize (firstn k full_attempt) <= 3
  /\ count_calls is_sleep (firstn k full_attempt) = 0
  /\ Forall listen_event (firstn k full_attempt).
Proof.
  intros [H1 H5].
  do 6 (destruct k as [| k]; [try lia; cbn; repeat split; try lia;
                              repeat constructor |]).
  lia.
Qed.

Lemma listen_loop_cons (max_retries attempt : nat) (attempts : list nat)
  (st : state) :
  listen_loop E max_retries (attempt :: attempts) st
  = match listen_once E st with
    | (inr text, st') => (inr (Some text), st')
    | (inl _, st') =>
        listen_loop E max_retries attempts
          (if attempt <? max_retries - 1
           then {| audio_counter := audio_counter st';
                   trace := (trace st' ++ [Sleep 1])%list |}
           else st')
    end.
Proof.
  cbn [listen_loop]. unfold io_bind at 1. unfold try_except.
  unfold io_bind at 1.
  destruct (listen_once E st) as [[e | text] st']; [| reflexivity].
  destruct e; cbn [listen_handler]; unfold io_ret at 1; unfold io_bind;
    destruct (attempt <? max_retries - 1); reflexivity.
Qed.

Lemma listen_loop_bounds (max_retries : nat) (attempts : list nat) :
  forall st, exists r new,
    listen_loop E max_retries attempts st
    = (inr r, {| audio_counter := audio_counter st;
                 trace := (trace st ++ new)%list |})
    /\ count_calls is_microphone new <= List.length attempts
    /\ count_calls is_recognize new <= 3 * List.length attempts
    /\ count_calls is_sleep new
       <= List.length (filter (fun n => n <? max_retries - 1) attempts)
    /\ Forall listen_event new
    /\ (attempts <> [] -> 1 <= count_calls is_microphone new).
Proof.
  induction attempts as [| attempt attempts IH]; intros st.
  - exists None, []. cbn. rewrite app_nil_r. destruct st.
    repeat split; try lia; try constructor. congruence.
  - rewrite listen_loop_cons.
    destruct (listen_once_calls st) as [r [k [Hk Honce]]]. rewrite Honce.
    destruct (attempt_prefix_counts k Hk) as [Hmic [Hrec [Hsl Hall]]].
    cbn [filter List.length].
    destruct r as [e | text].
    + destruct (attempt <? max_retries - 1);
        edestruct IH as [r' [new' [Heq [Bm [Br [Bs [Ball _]]]]]]];
        rewrite Heq; cbn [trace audio_counter];
        rewrite <- ?app_assoc; eexists _, _; (split; [reflexivity |]);
        rewrite ?count_calls_app, Hmic, Hsl; cbn [List.length];
        change (count_calls is_microphone [Sleep 1]) with 0;
        change (count_calls is_recognize [Sleep 1]) with 0;
        change (count_calls is_sleep [Sleep 1]) with 1;
        repeat split; try lia;
        repeat (apply Forall_app; split); try assumption;
        repeat constructor.
    + exists (Some text), (firstn k full_attempt).
      split; [reflexivity |].
      repeat split; try lia; try assumption.
Qed.

End ListenBounds.

(** X12: whatever the microphone and the recognizer do, [listen] returns
    without raising after one to three capture attempts, at most nine
    transcription requests and at most two pauses of one second; it makes
    no other call and leaves the counter of audio files alone. *)
Theorem listen_is_bounded_and_never_raises (E : Main.Env) (st : Main.state) :
  exists r new,
    Main.listen E st
    = (inr r, {| Main.audio_counter := Main.audio_counter st;
                 Main.trace := (Main.trace st ++ new)%list |})
    /\ 1 <= count_calls is_microphone new <= 3
    /\ count_calls is_recognize new <= 9
    /\ count_calls is_sleep new <= 2
    /\ Forall listen_event new.
Proof.
  destruct (listen_loop_bounds E 3 (seq 0 3) st)
    as [r [new [Heq [Bm [Br [Bs [Ball B1]]]]]]].
  exists r, new. unfold Main.listen. rewrite Heq.
  cbn in Bm, Br, Bs.
  repeat split; try lia; try assumption.
  apply B1. discriminate.
Qed.

(** X13: once audio is captured, an attempt of [listen] asks for the
    automatic transcription, then for "en-US", then for "fa-IR", stops at
    the first that gives a text, and when all three fail raises the
    exception of the automatic one. *)
Theorem transcription_tries_languages_in_order (E : Main.Env) (st : Main.state) :
  Main.microphone E (Main.trace st) = inr tt ->
  Main.capture E (Main.trace st ++ [Main.Microphone]) = inr tt ->
  let auto := Main.recognize_google E (Main.trace st ++ firstn 2 full_attempt) None in
  let en := Main.recognize_google E (Main.trace st ++ firstn 3 full_attempt)
              (Some "en-US") in
  let fa := Main.recognize_google E (Main.trace st ++ firstn 4 full_attempt)
              (Some "fa-IR") in
  Main.listen_once E st
  = match auto with
    | inr text => (inr text, after st (firstn 3 full_attempt))
    | inl e =>
        match en with
        | inr text => (inr text, after st (firstn 4 full_attempt))
        | inl _ =>
            match fa with
            | inr text => (inr text, after st full_attempt)
            | inl _ => (inl e, after st full_attempt)
            end
        end
    end.
Proof.
  intros Hmic Hcap auto en fa. subst auto en fa.
  unfold Main.listen_once, io_bind, try_except, Main.call, after.
  cbn [Main.trace Main.audio_counter firstn full_attempt].
  rewrite Hmic. cbn [Main.trace Main.audio_counter]. rewrite Hcap.
  rewrite <- ?app_assoc. cbn [app].
  destruct (Main.recognize_google E _ None) as [e | text];
    [| rewrite <- ?app_assoc; reflexivity].
  cbn [Main.recognize_languages].
  unfold io_bind, try_except, Main.call, io_ret, io_raise.
  cbn [Main.trace Main.audio_counter]. rewrite <- ?app_assoc. cbn [app].
  destruct (Main.recognize_google E _ (Some "en-US")) as [e1 | text];
    [| rewrite <- ?app_assoc; reflexivity].
  cbn [Main.trace Main.audio_counter]. rewrite <- ?app_assoc. cbn [app].
  destruct (Main.recognize_google E _ (Some "fa-IR")) as [e2 | text];
    rewrite <- ?app_assoc; reflexivity.
Qed.

Lemma transcription_tries_languages_in_order_witness :
  Main.listen_once env_persian fresh = (inr "salam", after fresh full_attempt).
Proof.
  apply (transcription_tries_languages_in_order env_persian fresh);
    reflexivity.
Defined.

(** X14: [listen] returns the text of the first attempt that succeeds
    without starting another one, pauses one second after a failed first
    or second attempt, and returns [None] without a pause after a failed
    third. *)
Theorem listen_stops_at_first_transcript (E : Main.Env) (st : Main.state) :
  Main.listen E st
  = match Main.listen_once E st with
    | (inr text, s1) => (inr (Some text), s1)
    | (inl _, s1) =>
        match Main.listen_once E (pause s1) with
        | (inr text, s2) => (inr (Some text), s2)
        | (inl _, s2) =>
            match Main.listen_once E (pause s2) with
            | (inr text, s3) => (inr (Some text), s3)
            | (inl _, s3) => (inr None, s3)
            end
        end
    end.
Proof.
  unfold Main.listen. cbn [seq]. rewrite listen_loop_cons.
  destruct (Main.listen_once E st) as [[e1 | t1] s1]; [| reflexivity].
  cbn [Nat.ltb Nat.leb Nat.sub]. fold (pause s1). rewrite listen_loop_cons.
  destruct (Main.listen_once E (pause s1)) as [[e2 | t2] s2]; [| reflexivity].
  cbn [Nat.ltb Nat.leb Nat.sub]. fold (pause s2). rewrite listen_loop_cons.
  destruct (Main.listen_once E (pause s2)) as [[e3 | t3] s3]; reflexivity.
Qed.

(** ** More on speech output *)

Section SpeakMore.
Import Py Main.

Variable E : Env.
Variable self : MultiAgent.

Lemma speak_once_eq (text : string) (st : state) :
  let n := S (audio_counter st) in
  let file := speech_file self n in
  let tr1 := (trace st ++ [TtsSave text (tts_lang text) file])%list in
  speak_once E self text st
  = match tts_save E (trace st) text (tts_lang text) file with
    | inl e => (inl e, {| audio_counter := n; trace := tr1 |})
    | inr _ =>
        match playsound E tr1 file with
        | inl e =>
            (inl e, {| audio_counter := n;
                       trace := (tr1 ++ [Playsound file])%list |})
        | inr _ =>
            (inr tt, {| audio_counter := n;
                        trace := (tr1 ++ [Playsound file; Remove file])%list |})
        end
    end.
Proof.
  intros n file tr1. subst n file tr1.
  unfold speak_once, io_bind, incr_audio_counter, call, try_except, io_ret,
    speech_file.
  cbn [trace audio_counter].
  destruct (tts_save E _ _ _ _) as [e | []]; [reflexivity |].
  cbn [trace audio_counter].
  destruct (playsound E _ _) as [e | []]; [reflexivity |].
  cbn [trace audio_counter].
  destruct (remove E _ _) as [e | []]; rewrite <- app_assoc; reflexivity.
Qed.

Lemma speak_loop_cons (text : string) (max_retries attempt : nat)
  (attempts : list nat) (st : state) :
  speak_loop E self text max_retries (attempt :: attempts) st
  = match speak_once E self text st with
    | (inr _, s1) => (inr tt, s1)
    | (inl _, s1) =>
        speak_loop E self text max_retries attempts
          (if attempt =? max_retries - 1 then s1 else pause s1)
    end.
Proof.
  cbn [speak_loop]. unfold io_bind at 1. unfold try_except.
  unfold io_bind at 1.
  destruct (speak_once E self text st) as [[e | []] s1]; [| reflexivity].
  unfold io_bind. destruct (attempt =? max_retries - 1); reflexivity.
Qed.

(** One attempt: one synthesis into the file of the next counter value. *)
Lemma speak_once_calls (text : string) (st : state) :
  exists r new,
    speak_once E self text st
    = (r, {| audio_counter := S (audio_counter st);
             trace := (trace st ++ new)%list |})
    /\ tts_files new = [speech_file self (S (audio_counter st))]
    /\ count_calls is_sleep new = 0
    /\ Forall (speak_event text) new.
Proof.
  rewrite speak_once_eq. cbv zeta.
  destruct (tts_save E _ _ _ _) as [e | u];
    [eexists _, _; split; [reflexivity |]; repeat split;
     repeat constructor |].
  destruct (playsound E _ _) as [e | u'];
    rewrite <- app_assoc; eexists _, _; (split; [reflexivity |]);
    repeat split; repeat constructor.
Qed.

End SpeakMore.

Lemma tts_files_app (l1 l2 : list Main.event) :
  tts_files (l1 ++ l2) = (tts_files l1 ++ tts_files l2)%list.
Proof.
  induction l1 as [| e l1 IH]; [reflexivity |].
  destruct e; cbn; rewrite ?IH; reflexivity.
Qed.

(** X15: whatever the speech services do, [speak] returns without raising
    after k syntheses with k between 1 and 3; the counter of audio files
    grows by k, the syntheses write to the files of the k counter values
    in turn, and there are k - 1 pauses. *)
Theorem speak_attempts_and_files
  (E : Main.Env) (self : Main.MultiAgent) (text : string) (st : Main.state) :
  exists k new,
    1 <= k <= 3
    /\ Main.speak E self text st
       = (inr tt, {| Main.audio_counter := Main.audio_counter st + k;
                     Main.trace := (Main.trace st ++ new)%list |})
    /\ tts_files new = map (speech_file self) (seq (S (Main.audio_counter st)) k)
    /\ count_calls is_sleep new = k - 1
    /\ Forall (speak_event text) new.
Proof.
  unfold Main.speak. cbn [seq]. rewrite speak_loop_cons.
  destruct (speak_once_calls E self text st) as [r1 [n1 [H1 [F1 [S1 A1]]]]].
  rewrite H1. destruct r1 as [e1 | []].
  2:{ exists 1, n1. rewrite Nat.add_1_r. repeat split; try lia; assumption. }
  cbn [Nat.eqb Nat.sub]. rewrite speak_loop_cons.
  destruct (speak_once_calls E self text
              (pause {| Main.audio_counter := S (Main.audio_counter st);
                        Main.trace := (Main.trace st ++ n1)%list |}))
    as [r2 [n2 [H2 [F2 [S2 A2]]]]].
  rewrite H2. cbn [pause Main.audio_counter Main.trace] in *.
  destruct r2 as [e2 | []].
  2:{ exists 2, (n1 ++ [Main.Sleep 1] ++ n2)%list.
      rewrite <- !app_assoc.
      replace (Main.audio_counter st + 2) with (S (S (Main.audio_counter st)))
        by lia.
      repeat split; try lia.
      - rewrite !tts_files_app, F1, F2. reflexivity.
      - rewrite !count_calls_app, S1, S2. reflexivity.
      - repeat (apply Forall_app; split); try assumption.
        repeat constructor. }
  cbn [Nat.eqb Nat.sub]. rewrite speak_loop_cons.
  match goal with
  | |- context [Main.speak_once E self text ?s] =>
      destruct (speak_once_calls E self text s) as [r3 [n3 [H3 [F3 [S3 A3]]]]]
  end.
  rewrite H3. cbn [pause Main.audio_counter Main.trace] in *.
  exists 3, (n1 ++ [Main.Sleep 1] ++ n2 ++ [Main.Sleep 1] ++ n3)%list.
  rewrite <- !app_assoc.
  replace (Main.audio_counter st + 3) with (S (S (S (Main.audio_counter st))))
    by lia.
  assert (Hrest :
    tts_files (n1 ++ [Main.Sleep 1] ++ n2 ++ [Main.Sleep 1] ++ n3)
    = map (speech_file self) (seq (S (Main.audio_counter st)) 3)
    /\ count_calls is_sleep (n1 ++ [Main.Sleep 1] ++ n2 ++ [Main.Sleep 1] ++ n3)
       = 3 - 1
    /\ Forall (speak_event text)
         (n1 ++ [Main.Sleep 1] ++ n2 ++ [Main.Sleep 1] ++ n3)).
  { repeat split.
    - rewrite !tts_files_app, F1, F2, F3. reflexivity.
    - rewrite !count_calls_app, S1, S2, S3. reflexivity.
    - repeat (apply Forall_app; split); try assumption; repeat constructor. }
  destruct r3 as [e3 | []]; cbn [Main.speak_loop]; unfold io_ret;
    (split; [lia |]); (split; [reflexivity | exact Hrest]).
Qed.

(** X16: when the synthesis and the playback of the first attempt
    succeed, [speak] ends after that attempt whether or not the audio file
    could be removed. *)
Theorem failed_removal_is_ignored
  (E : Main.Env) (self : Main.MultiAgent) (text : string) (st : Main.state) :
  let file := speech_file self (S (Main.audio_counter st)) in
  let tts := Main.TtsSave text (Main.tts_lang text) file in
  Main.tts_save E (Main.trace st) text (Main.tts_lang text) file = inr tt ->
  Main.playsound E (Main.trace st ++ [tts]) file = inr tt ->
  Main.speak E self text st
  = (inr tt,
     {| Main.audio_counter := S (Main.audio_counter st);
        Main.trace := (Main.trace st
                       ++ [tts; Main.Playsound file; Main.Remove file])%list |}).
Proof.
  intros file tts Htts Hplay. subst file tts.
  unfold Main.speak. cbn [seq]. rewrite speak_loop_cons, speak_once_eq.
  cbv zeta. rewrite Htts, Hplay. rewrite <- app_assoc. reflexivity.
Qed.

Lemma failed_removal_is_ignored_witness :
  Main.speak env_busy_files (agent_of env_busy_files) "Hello" fresh
  = (inr tt,
     {| Main.audio_counter := 1;
        Main.trace :=
          [Main.TtsSave "Hello" "en" "/tmp/agent/speech_1.mp3";
           Main.Playsound "/tmp/agent/speech_1.mp3";
           Main.Remove "/tmp/agent/speech_1.mp3"] |}).
Proof.
  apply (failed_removal_is_ignored
           env_busy_files (agent_of env_busy_files) "Hello" fresh);
    reflexivity.
Defined.

(** X17: when every synthesis of the text fails, [speak] tries three
    times with a pause of one second between two tries and returns
    normally. *)
Theorem failed_synthesis_degrades_to_silence
  (E : Main.Env) (self : Main.MultiAgent) (text : string) (st : Main.state) :
  (forall tr file, exists e,
     Main.tts_save E tr text (Main.tts_lang text) file = inl e) ->
  let n := Main.audio_counter st in
  let tts k := Main.TtsSave text (Main.tts_lang text) (speech_file self (n + k)) in
  Main.speak E self text st
  = (inr tt,
     {| Main.audio_counter := n + 3;
        Main.trace := (Main.trace st
                       ++ [tts 1; Main.Sleep 1; tts 2; Main.Sleep 1; tts 3])%list |}).
Proof.
  intros Hfail n tts. subst n tts.
  unfold Main.speak. cbn [seq].
  rewrite speak_loop_cons, speak_once_eq. cbv zeta.
  destruct (Hfail (Main.trace st)
              (speech_file self (S (Main.audio_counter st)))) as [e1 H1].
  rewrite H1. cbn [Nat.eqb Nat.sub]. unfold pause.
  cbn [Main.audio_counter Main.trace].
  rewrite speak_loop_cons, speak_once_eq. cbv zeta.
  cbn [Main.audio_counter Main.trace].
  match goal with
  | |- context [Main.tts_save E ?tr text _ ?f] =>
      destruct (Hfail tr f) as [e2 H2]; rewrite H2
  end.
  cbn [Nat.eqb Nat.sub]. unfold pause. cbn [Main.audio_counter Main.trace].
  rewrite speak_loop_cons, speak_once_eq. cbv zeta.
  cbn [Main.audio_counter Main.trace].
  match goal with
  | |- context [Main.tts_save E ?tr text _ ?f] =>
      destruct (Hfail tr f) as [e3 H3]; rewrite H3
  end.
  cbn [Nat.eqb Nat.sub Main.speak_loop]. unfold io_ret.
  rewrite <- !app_assoc. cbn [app].
  replace (Main.audio_counter st + 1) with (S (Main.audio_counter st)) by lia.
  replace (Main.audio_counter st + 2) with (S (S (Main.audio_counter st))) by lia.
  replace (Main.audio_counter st + 3) with (S (S (S (Main.audio_counter st)))) by lia.
  reflexivity.
Qed.

Lemma failed_synthesis_degrades_to_silence_witness :
  Main.speak env_mute (agent_of env_mute) "Hello" fresh
  = (inr tt,
     {| Main.audio_counter := 3;
        Main.trace :=
          [Main.TtsSave "Hello" "en" (speech_file (agent_of env_mute) 1);
           Main.Sleep 1;
           Main.TtsSave "Hello" "en" (speech_file (agent_of env_mute) 2);
           Main.Sleep 1;
           Main.TtsSave "Hello" "en" (speech_file (agent_of env_mute) 3)] |}).
Proof.
  apply (failed_synthesis_degrades_to_silence env_mute (agent_of env_mute)
           "Hello" fresh).
  intros tr file. eexists. reflexivity.
Defined.

(** ** More on command processing *)

Lemma process_command_total
  (E : Main.Env) (self : Main.MultiAgent) (command : option string)
  (st : Main.state) :
  exists out st', Main.process_command E self command st = (inr out, st').
Proof.
  destruct command as [[| c s] |];
    try (exists empty_reply, st; reflexivity).
  unfold Main.process_command, try_except at 1.
  match goal with
  | |- context [let (r, st') := ?comp in _] =>
      destruct comp as [[e | out] st']
  end; eexists _, _; reflexivity.
Qed.

(** X18: [process_command] returns a reply and never raises, whatever the
    models and the file system do and whichever models the agent holds;
    for [None] and for the empty command the reply is the fixed request to
    repeat and nothing is called. *)
Theorem process_command_never_raises
  (E : Main.Env) (self : Main.MultiAgent) (command : option string)
  (st : Main.state) :
  exists out st',
    Main.process_command E self command st = (inr out, st')
    /\ (Main.truthy command = false -> out = empty_reply /\ st' = st).
Proof.
  destruct (process_command_total E self command st) as [out [st' Heq]].
  exists out, st'. split; [exact Heq |].
  intros Hfalsy.
  destruct command as [[| c s] |]; try discriminate;
    cbn in Heq; injection Heq as <- <-; split; reflexivity.
Qed.

Section CommandMore.
Import Py Main.

Variable E : Env.
Variable self : MultiAgent.
Variables chat code : Ollama.
Hypothesis Hchat : get (models self) "chat" = Some chat.
Hypothesis Hcode : get (models self) "code" = Some code.

Lemma code_branch_no_block (command : string) (st : state) :
  (forall resp,
     invoke E (trace st) code (code_prompt command) = inr resp ->
     first_code_block resp = None) ->
  code_branch E self command st
  = (invoke E (trace st) code (code_prompt command),
     after st [Invoke code (code_prompt command)]).
Proof.
  intros Hnone. unfold code_branch, io_bind, lift, getitem, call, after.
  rewrite Hcode. cbn [ret trace audio_counter].
  destruct (invoke E (trace st) code (code_prompt command)) as [e | resp];
    [reflexivity |].
  rewrite (Hnone resp eq_refl).
  destruct (contains "```python" resp); reflexivity.
Qed.

Lemma chat_branch_eq (command : string) (st : state) :
  let first := Invoke chat (enhanced_prompt command) in
  chat_branch E self command st
  = match invoke E (trace st) chat (enhanced_prompt command) with
    | inr r => (inr r, after st [first])
    | inl _ =>
        (invoke E (trace st ++ [first]) chat command,
         after st [first; Invoke chat command])
    end.
Proof.
  intros first. subst first.
  unfold chat_branch, try_except, io_bind, lift, getitem, call, after.
  rewrite Hchat. cbn [ret trace audio_counter].
  destruct (invoke E (trace st) chat (enhanced_prompt command)) as [e | r];
    [| reflexivity].
  cbn [trace audio_counter]. rewrite <- app_assoc. reflexivity.
Qed.

End CommandMore.

(** X19: for a code query whose answer holds no complete fenced python
    block, the reply is the answer unchanged, or the fixed message of the
    code branch when the model fails; the code model is invoked once, the
    chat model is not tried, and no file is written. *)
Theorem code_query_without_block_writes_nothing
  (E : Main.Env) (self : Main.MultiAgent) (code : Main.Ollama)
  (c : ascii) (s : string) (st : Main.state) :
  let command := String c s in
  let answer := Main.invoke E (Main.trace st) code (Main.code_prompt command) in
  Py.get (Main.models self) "code" = Some code ->
  is_code_query command = true ->
  (forall resp, answer = inr resp -> Main.first_code_block resp = None) ->
  Main.process_command E self (Some command) st
  = (inr (match answer with
          | inr resp => resp
          | inl _ => code_error_reply
          end),
     after st [Main.Invoke code (Main.code_prompt command)]).
Proof.
  intros command answer Hcode Hq Hnone. subst command answer.
  rewrite (process_command_code E self c s st Hq).
  unfold try_except.
  rewrite (code_branch_no_block E self code Hcode (String c s) st Hnone).
  destruct (Main.invoke E _ code _); reflexivity.
Qed.

Lemma code_query_without_block_writes_nothing_witness :
  Main.process_command env_prose (agent_of env_prose) (Some "Run it") fresh
  = (inr "Use ```python fences next time.",
     after fresh [Main.Invoke code_llama (Main.code_prompt "Run it")]).
Proof.
  apply (code_query_without_block_writes_nothing env_prose (agent_of env_prose)
           code_llama "R" "un it" fresh).
  - reflexivity.
  - reflexivity.
  - intros resp H. injection H as <-. reflexivity.
Defined.

(** X20: for a command that is not a code query, the reply is the chat
    model's answer to the enhanced prompt; when that invocation fails, it
    is the answer to the bare command, and when that fails too, the fixed
    error message. *)
Theorem chat_query_replies
  (E : Main.Env) (self : Main.MultiAgent) (chat : Main.Ollama)
  (c : ascii) (s : string) (st : Main.state) :
  let command := String c s in
  let first := Main.Invoke chat (Main.enhanced_prompt command) in
  Py.get (Main.models self) "chat" = Some chat ->
  is_code_query command = false ->
  Main.process_command E self (Some command) st
  = match Main.invoke E (Main.trace st) chat (Main.enhanced_prompt command) with
    | inr r => (inr r, after st [first])
    | inl _ =>
        (inr (match Main.invoke E (Main.trace st ++ [first]) chat command with
              | inr r => r
              | inl _ => command_error_reply
              end),
         after st [first; Main.Invoke chat command])
    end.
Proof.
  intros command first Hchat Hq. subst command first.
  rewrite (process_command_chat E self c s st Hq).
  unfold try_except. rewrite (chat_branch_eq E self chat Hchat).
  cbv zeta.
  destruct (Main.invoke E (Main.trace st) chat _) as [e | r]; [| reflexivity].
  destruct (Main.invoke E _ chat (String c s)); reflexivity.
Qed.

Lemma chat_query_replies_witness :
  Main.process_command env_short_prompts (agent_of env_short_prompts)
    (Some "hello") fresh
  = (inr "Hi there",
     after fresh [Main.Invoke neural_chat (Main.enhanced_prompt "hello");
                  Main.Invoke neural_chat "hello"]).
Proof.
  apply (chat_query_replies env_short_prompts (agent_of env_short_prompts)
           neural_chat "h" "ello" fresh);
    reflexivity.
Defined.

(** *** The fenced block *)

Lemma substring_all (m : nat) (s : string) :
  String.length s <= m -> substring 0 m s = s.
Proof.
  revert m. induction s as [| c s IH]; intros m H.
  - destruct m; reflexivity.
  - destruct m as [| m]; [cbn in H; lia |].
    cbn. rewrite IH; [reflexivity | cbn in H; lia].
Qed.

Lemma substring_behind (p rest : string) (m : nat) :
  substring (String.length p) m (p ++ rest) = substring 0 m rest.
Proof.
  induction p as [| a p IH]; [reflexivity |].
  cbn [String.length append substring]. exact IH.
Qed.

Lemma length_append (s t : string) :
  String.length (s ++ t) = String.length s + String.length t.
Proof. induction s as [| c s IH]; cbn; [reflexivity | now rewrite IH]. Qed.

Lemma startswith_split (p s : string) :
  Py.startswith p s = true ->
  exists rest,
    s = p ++ rest
    /\ substring (String.length p) (String.length s) s = rest.
Proof.
  revert s. induction p as [| a p IH]; intros s H.
  - exists s. split; [reflexivity |]. cbn [String.length].
    apply substring_all. lia.
  - destruct s as [| b s]; [discriminate |].
    cbn in H. apply andb_true_iff in H. destruct H as [Hab Hps].
    apply Ascii.eqb_eq in Hab. subst b.
    destruct (IH s Hps) as [rest [Heq _]].
    exists rest. subst s. split; [reflexivity |].
    change (String a (p ++ rest)) with (String a p ++ rest).
    rewrite substring_behind. apply substring_all.
    rewrite length_append. lia.
Qed.

Lemma startswith_self (p rest : string) : Py.startswith p (p ++ rest) = true.
Proof.
  induction p as [| a p IH]; [reflexivity |].
  cbn. rewrite Ascii.eqb_refl. exact IH.
Qed.

Lemma after_first_split (p s rest : string) :
  Main.after_first p s = Some rest -> exists pre, s = pre ++ p ++ rest.
Proof.
  induction s as [| c s IH]; cbn [Main.after_first].
  - destruct (Py.startswith p "") eqn:Hs; [| discriminate].
    intros H. injection H as H.
    destruct (startswith_split _ _ Hs) as [r [Heq Hsub]].
    assert (Hr : r = rest) by (rewrite <- Hsub; exact H).
    exists "". rewrite <- Hr. exact Heq.
  - destruct (Py.startswith p (String c s)) eqn:Hs.
    + intros H. injection H as H.
      destruct (startswith_split _ _ Hs) as [r [Heq Hsub]].
      assert (Hr : r = rest) by (rewrite <- Hsub; exact H).
      exists "". rewrite <- Hr. exact Heq.
    + intros H. destruct (IH H) as [pre Heq].
      exists (String c pre). cbn. now rewrite <- Heq.
Qed.

Lemma before_first_split (p s block : string) :
  Main.before_first p s = Some block -> exists post, s = block ++ p ++ post.
Proof.
  revert block. induction s as [| c s IH]; intros block;
    cbn [Main.before_first].
  - destruct (Py.startswith p "") eqn:Hs; [| discriminate].
    intros H. injection H as <-.
    destruct (startswith_split _ _ Hs) as [r [Heq _]]. now exists r.
  - destruct (Py.startswith p (String c s)) eqn:Hs.
    + intros H. injection H as <-.
      destruct (startswith_split _ _ Hs) as [r [Heq _]]. now exists r.
    + destruct (Main.before_first p s) as [b |]; [| discriminate].
      intros H. injection H as <-.
      destruct (IH b eq_refl) as [post Heq].
      exists post. cbn. now rewrite <- Heq.
Qed.

(** X21: a block that [first_code_block] extracts stands in the answer
    between an opening python fence and a closing fence. *)
Theorem extracted_block_is_fenced (resp block : string) :
  Main.first_code_block resp = Some block ->
  exists pre post, resp = pre ++ fence_open ++ block ++ fence_close ++ post.
Proof.
  unfold Main.first_code_block. fold fence_open. fold fence_close.
  destruct (Main.after_first fence_open resp) as [rest |] eqn:Ha;
    [| discriminate].
  intros Hb.
  destruct (after_first_split _ _ _ Ha) as [pre Hpre].
  destruct (before_first_split _ _ _ Hb) as [post Hpost].
  exists pre, post. rewrite Hpre, Hpost. reflexivity.
Qed.

Lemma extracted_block_is_fenced_witness :
  exists pre post,
    fenced_answer = pre ++ fence_open ++ "print(42)" ++ fence_close ++ post.
Proof.
  apply (extracted_block_is_fenced fenced_answer "print(42)").
  reflexivity.
Defined.

Lemma no_backtick_cons (c : ascii) (s : string) :
  Py.contains backtick (String c s) = false ->
  Ascii.eqb "`" c = false /\ Py.contains backtick s = false.
Proof.
  cbn. intros H. apply orb_false_iff in H. destruct H as [H1 H2].
  rewrite andb_true_r in H1. split; assumption.
Qed.

Lemma after_first_found (pre rest : string) :
  Py.contains backtick pre = false ->
  Main.after_first fence_open (pre ++ fence_open ++ rest) = Some rest.
Proof.
  induction pre as [| c pre IH]; intros Hno.
  - cbn [append].
    assert (Hs : Py.startswith fence_open (fence_open ++ rest) = true)
      by apply startswith_self.
    destruct (startswith_split _ _ Hs) as [r [Heq Hsub]].
    assert (Hr : substring (String.length fence_open)
                   (String.length (fence_open ++ rest)) (fence_open ++ rest)
                 = rest).
    { rewrite substring_behind. apply substring_all.
      rewrite length_append. lia. }
    destruct (fence_open ++ rest) eqn:Hfr; cbn [Main.after_first];
      rewrite Hs, Hr; reflexivity.
  - destruct (no_backtick_cons _ _ Hno) as [Hc Hpre].
    cbn [append Main.after_first].
    assert (Hs : Py.startswith fence_open
                   (String c (pre ++ fence_open ++ rest)) = false).
    { unfold fence_open at 1. cbn [append Py.startswith].
      rewrite Hc. reflexivity. }
    rewrite Hs. now apply IH.
Qed.

Lemma before_first_found (block post : string) :
  Py.contains backtick block = false ->
  Main.before_first fence_close (block ++ fence_close ++ post) = Some block.
Proof.
  induction block as [| c block IH]; intros Hno.
  - cbn [append].
    assert (Hs : Py.startswith fence_close (fence_close ++ post) = true)
      by apply startswith_self.
    destruct (fence_close ++ post) eqn:Hfr; cbn [Main.before_first];
      rewrite Hs; reflexivity.
  - destruct (no_backtick_cons _ _ Hno) as [Hc Hblock].
    cbn [append Main.before_first].
    assert (Hs : Py.startswith fence_close
                   (String c (block ++ fence_close ++ post)) = false).
    { unfold fence_close, Main.nl. cbn [append Py.startswith].
      destruct (Ascii.eqb (ascii_of_nat 10) c); [| reflexivity]. cbn [andb].
      destruct block as [| d block].
      - reflexivity.
      - destruct (no_backtick_cons _ _ Hblock) as [Hd _].
        cbn [append]. rewrite Hd. reflexivity. }
    rewrite Hs, (IH Hblock). reflexivity.
Qed.

(** X22: when the text before a fenced python block and the block itself
    hold no backtick, [first_code_block] returns exactly that block,
    whatever follows the closing fence. *)
Theorem fenced_block_is_extracted (pre block post : string) :
  Py.contains backtick pre = false ->
  Py.contains backtick block = false ->
  Main.first_code_block (pre ++ fence_open ++ block ++ fence_close ++ post)
  = Some block.
Proof.
  intros Hpre Hblock. unfold Main.first_code_block.
  fold fence_open. fold fence_close.
  rewrite (after_first_found pre _ Hpre).
  now apply before_first_found.
Qed.

Lemma fenced_block_is_extracted_witness :
  Main.first_code_block
    ("Here:" ++ fence_open ++ "import os" ++ Main.nl ++ "print(os.name)"
     ++ fence_close ++ " and `later` text")
  = Some ("import os" ++ Main.nl ++ "print(os.name)").
Proof.
  apply (fenced_block_is_extracted "Here:"
           ("import os" ++ Main.nl ++ "print(os.name)") " and `later` text");
    reflexivity.
Defined.

(** ** More on the command loops *)

Lemma run_body_total (E : Main.Env) (self : Main.MultiAgent) (st : Main.state) :
  exists ctl st', Main.run_body E self st = (inr ctl, st').
Proof.
  unfold Main.run_body. unfold io_bind at 1.
  destruct (listen_loop_bounds E 3 (seq 0 3) st) as [r [new [Hl _]]].
  unfold Main.listen. rewrite Hl.
  destruct (Main.truthy r); [| eexists _, _; reflexivity].
  destruct (_ || _).
  - unfold io_bind.
    edestruct speak_returns as [n [new' [Hs _]]]. rewrite Hs.
    eexists _, _. reflexivity.
  - unfold io_bind at 1.
    edestruct process_command_total as [out [st1 Hp]]. rewrite Hp.
    unfold io_bind.
    edestruct speak_returns as [n [new' [Hs _]]]. rewrite Hs.
    eexists _, _. reflexivity.
Qed.

Lemma while_true_total {St : Type} (body : @io St loop_ctl) (fuel : nat) :
  (forall st, exists ctl st', body st = (inr ctl, st')) ->
  forall st, exists r st', while_true fuel body st = (inr r, st').
Proof.
  intros Hbody. induction fuel as [| fuel IH]; intros st.
  - eexists _, _. reflexivity.
  - cbn [while_true]. unfold io_bind.
    destruct (Hbody st) as [ctl [st1 Hb]]. rewrite Hb.
    destruct ctl; [apply IH | eexists _, _; reflexivity].
Qed.

(** X23: no iteration of the loop of [main.py] raises, whatever the
    environment does, and [run] never raises; when its loop has ended,
    [run] returns with [cleanup] as its last call, and while the loop is
    still running [cleanup] is not called. *)
Theorem main_loop_survives_every_command
  (E : Main.Env) (self : Main.MultiAgent) (fuel : nat) (st : Main.state) :
  (exists ctl st', Main.run_body E self st = (inr ctl, st'))
  /\ exists r st1,
       io_bind (Main.speak E self greeting)
               (fun _ => while_true fuel (Main.run_body E self)) st
       = (inr r, st1)
       /\ Main.run E self fuel st
          = (inr r, match r with
                    | Some _ => after st1 [Main.Cleanup]
                    | None => st1
                    end).
Proof.
  split; [apply run_body_total |].
  assert (Hinner : exists r st1,
            io_bind (Main.speak E self greeting)
                    (fun _ => while_true fuel (Main.run_body E self)) st
            = (inr r, st1)).
  { unfold io_bind.
    destruct (speak_returns E self greeting st) as [n [new [Hs _]]].
    rewrite Hs.
    edestruct (while_true_total (Main.run_body E self) fuel
                 (run_body_total E self)) as [r [st1 Hw]].
    rewrite Hw. now exists r, st1. }
  destruct Hinner as [r [st1 Hinner]].
  exists r, st1. split; [exact Hinner |].
  unfold Main.run. fold greeting. unfold io_bind at 1. unfold try_except.
  rewrite Hinner.
  destruct r as [u |]; reflexivity.
Qed.

(** X10: in the loop of [multiagent.py], when the transcription raises or
    gives the empty text, the iteration makes no request to the model
    server, says nothing and goes on; an exception of the capture itself
    is not caught and leaves the iteration. *)
Theorem plain_loop_skips_unheard_input
  (E : Multiagent.Env) (tr : list Multiagent.event) :
  Multiagent.truthy
    (match Multiagent.recognize_google E (tr ++ [Multiagent.MicListen]) with
     | inr text => Some text
     | inl _ => None
     end) = None ->
  Multiagent.run_body E tr
  = match Multiagent.capture E tr with
    | inr _ =>
        (inr Continue,
         (tr ++ [Multiagent.MicListen; Multiagent.RecognizeGoogle])%list)
    | inl e => (inl e, (tr ++ [Multiagent.MicListen])%list)
    end.
Proof.
  unfold Multiagent.run_body, Multiagent.listen, io_bind, try_except,
    Multiagent.call, io_ret.
  destruct (Multiagent.capture E tr) as [e | u]; [reflexivity |].
  destruct (Multiagent.recognize_google E _) as [e | text]; intros H;
    cbn in H |- *; try rewrite H; rewrite <- app_assoc; reflexivity.
Qed.

Lemma plain_loop_skips_unheard_input_witness :
  Multiagent.run_body (env_hears "") []
  = (inr Continue, [Multiagent.MicListen; Multiagent.RecognizeGoogle]).
Proof.
  apply (plain_loop_skips_unheard_input (env_hears "") []).
  reflexivity.
Defined.

(** X11: in the loop of [multiagent.py], a captured command without
    "exit" is posted once, unchanged, for the model "codellama", and the
    reply handed to the speech engine is the response for status 200 and
    the fixed apology otherwise; the iteration continues when the request
    and the speech succeed, and an exception of either is not caught: it
    ends the loop. *)
Theorem plain_loop_posts_command
  (E : Multiagent.Env) (tr : list Multiagent.event) (c : ascii) (s : string) :
  let command := String c s in
  let heard := (tr ++ [Multiagent.MicListen; Multiagent.RecognizeGoogle])%list in
  let post := Multiagent.Post Multiagent.ollama_url "codellama" command in
  Multiagent.capture E tr = inr tt ->
  Multiagent.recognize_google E (tr ++ [Multiagent.MicListen]) = inr command ->
  Py.contains "exit" (Py.lower command) = false ->
  Multiagent.run_body E tr
  = match Multiagent.post_generate E heard command with
    | inl e => (inl e, (heard ++ [post])%list)
    | inr (status, body) =>
        (match Multiagent.say E (heard ++ [post]) (plain_reply status body) with
         | inr _ => inr Continue
         | inl e => inl e
         end,
         (heard ++ [post; Multiagent.Say (plain_reply status body)])%list)
    end
  /\ forall e fuel,
       fst (Multiagent.run_body E tr) = inl e ->
       fst (while_true (S fuel) (Multiagent.run_body E) tr) = inl e.
Proof.
  intros command heard post Hcap Hrec Hexit. subst command heard post.
  split.
  - unfold Multiagent.run_body, Multiagent.listen, io_bind, try_except,
      Multiagent.call, io_ret, Py.ret.
    rewrite Hcap, Hrec. cbn [Multiagent.truthy]. rewrite Hexit.
    unfold Multiagent.process_command, Multiagent.speak, io_bind,
      Multiagent.call, io_ret, Py.ret.
    rewrite <- ?app_assoc. cbn [app].
    destruct (Multiagent.post_generate E _ (String c s)) as [e | [status body]];
      [rewrite <- ?app_assoc; reflexivity |].
    cbn [fst snd]. unfold plain_reply.
    destruct (status =? 200); rewrite <- ?app_assoc; cbn [app];
      match goal with
      | |- context [Multiagent.say E ?t ?r] => destruct (Multiagent.say E t r)
      end; rewrite <- ?app_assoc; reflexivity.
  - intros e fuel He. cbn [while_true]. unfold io_bind.
    destruct (Multiagent.run_body E tr) as [[e' | ctl] tr'];
      cbn [fst] in He |- *; [injection He as ->; reflexivity | discriminate].
Qed.

Lemma plain_loop_posts_command_witness :
  Multiagent.run_body (env_post_down "What is Rust?") []
  = (inl (Py.OSError "connection refused"),
     [Multiagent.MicListen; Multiagent.RecognizeGoogle;
      Multiagent.Post Multiagent.ollama_url "codellama" "What is Rust?"])
  /\ forall e fuel,
       fst (Multiagent.run_body (env_post_down "What is Rust?") []) = inl e ->
       fst (while_true (S fuel)
              (Multiagent.run_body (env_post_down "What is Rust?")) [])
       = inl e.
Proof.
  apply (plain_loop_posts_command (env_post_down "What is Rust?") [] "W"
           "hat is Rust?");
    reflexivity.
Defined.

Lemma listen_events_no_invoke (new : list Main.event) :
  Forall listen_event new -> invokes new = [].
Proof.
  induction 1 as [| e new He _ IH]; [reflexivity |].
  destruct e; cbn in He |- *; try contradiction; exact IH.
Qed.

(** X24: one iteration of the loop of [main.py] invokes a model at most
    twice. *)
Theorem loop_iteration_invokes_at_most_twice
  (E : Main.Env) (self : Main.MultiAgent) (chat code : Main.Ollama)
  (st : Main.state) :
  Py.get (Main.models self) "chat" = Some chat ->
  Py.get (Main.models self) "code" = Some code ->
  exists new,
    Main.trace (snd (Main.run_body E self st)) = (Main.trace st ++ new)%list
    /\ List.length (invokes new) <= 2.
Proof.
  intros Hchat Hcode.
  unfold Main.run_body. unfold io_bind at 1.
  destruct (listen_loop_bounds E 3 (seq 0 3) st)
    as [r [new1 [Hl [_ [_ [_ [Hall _]]]]]]].
  unfold Main.listen. rewrite Hl.
  pose proof (listen_events_no_invoke new1 Hall) as Hno1.
  destruct r as [[| c s] |]; cbn [Main.truthy];
    try (exists new1; split; [reflexivity | rewrite Hno1; cbn; lia]).
  cbn [Main.text_of].
  destruct (_ || _).
  - unfold io_bind.
    edestruct speak_returns as [n [new2 [Hs Hall2]]]. rewrite Hs.
    exists (new1 ++ new2)%list. cbn [snd Main.trace].
    rewrite app_assoc. split; [reflexivity |].
    rewrite invokes_app, Hno1, (speak_events_no_invoke _ _ Hall2). cbn. lia.
  - unfold io_bind at 1.
    match goal with
    | |- context [Main.process_command E self _ ?s0] =>
        destruct (process_command_calls E self chat code Hchat Hcode c s s0)
          as [new2 [Htr Hinv]];
        destruct (process_command_total E self (Some (String c s)) s0)
          as [out [st2 Hp]]
    end.
    rewrite Hp in Htr |- *. cbn [snd Main.trace] in Htr.
    unfold io_bind.
    edestruct speak_returns as [n [new3 [Hs Hall3]]]. rewrite Hs.
    exists (new1 ++ new2 ++ new3)%list. cbn [snd Main.trace].
    rewrite Htr, <- !app_assoc. split; [reflexivity |].
    rewrite !invokes_app, Hno1, (speak_events_no_invoke _ _ Hall3).
    rewrite app_nil_r. cbn [app].
    destruct (is_code_query (String c s)).
    + rewrite Hinv. cbn. lia.
    + destruct Hinv as [-> | [_ ->]]; cbn; lia.
Qed.

Lemma loop_iteration_invokes_at_most_twice_witness :
  exists new,
    Main.trace (snd (Main.run_body env_models_down (agent_of env_models_down)
                       fresh))
    = (Main.trace fresh ++ new)%list
    /\ List.length (invokes new) <= 2.
Proof.
  apply (loop_iteration_invokes_at_most_twice env_models_down
           (agent_of env_models_down) neural_chat code_llama fresh);
    reflexivity.
Defined.

